(** * Provider abstraction layer: cloud (OpenAI) adapters and the client factory

    A shallow embedding of
    - [server/utils/openai_client.py]     (classes [AsyncClient] and [Client]),
    - [server/utils/openai_embedding.py]  (class [OpenAIEmbeddingFunction]),
    - [server/utils/client_factory.py]    (the three factory functions),
    followed by the properties of the specification that concern them.

    Python values exchanged with the vendor are JSON documents; they are
    modelled by the inductive type [pyval].  Dictionaries are finite maps
    ([gmap]) keyed by strings.  Strings are byte strings.  The HTTP
    transport (the [requests] and [aiohttp] packages) is an oracle that
    answers each request; every request issued and every log record written
    is appended to a trace, so that "no network call" is a statement about
    the trace. *)

From Stdlib Require Import PrimFloat ZArith Ascii.
From stdpp Require Import gmap strings list fin_maps.

#[local] Set Warnings "-inexact-float,-register-all".
#[local] Open Scope Z_scope.

(* ===================================================================== *)
(** ** Python values and exceptions *)
(* ===================================================================== *)

Inductive pyval : Type :=
| PNone
| PBool (b : bool)
| PInt (z : Z)
| PFloat (f : float)
| PStr (s : string)
| PList (l : list pyval)
| PDict (d : gmap string pyval).

(** The exceptions the modelled code can raise.  [Exception msg] is the
    generic [raise Exception(msg)] of the adapters; the others are raised by
    the interpreter on subscripting, attribute access and JSON decoding, or
    by the transport. *)
Inductive exn : Type :=
| Exception (msg : string)
| KeyError (key : pyval)
| IndexError
| TypeError
| AttributeError (attr : string)
| JSONDecodeError
| TransportError (msg : string).

(** [v[k]] for a string literal [k]. *)
Definition getitem_str (v : pyval) (k : string) : exn + pyval :=
  match v with
  | PDict d =>
      match d !! k with
      | Some x => inr x
      | None => inl (KeyError (PStr k))
      end
  | _ => inl TypeError
  end.

(** [l[i]] on a Python list: negative indices count from the end. *)
Definition list_index {A : Type} (l : list A) (i : Z) : option A :=
  let n := Z.of_nat (length l) in
  if bool_decide (0 ≤ i < n) then l !! Z.to_nat i
  else if bool_decide (- n ≤ i < 0) then l !! Z.to_nat (n + i)
  else None.

Definition string_to_chars (s : string) : list pyval :=
  (fun a => PStr (String a EmptyString)) <$> String.list_ascii_of_string s.

(** [v[i]] for an integer literal [i]. *)
Definition getitem_int (v : pyval) (i : Z) : exn + pyval :=
  match v with
  | PList l =>
      match list_index l i with
      | Some x => inr x
      | None => inl IndexError
      end
  | PStr s =>
      match list_index (string_to_chars s) i with
      | Some x => inr x
      | None => inl IndexError
      end
  | PDict _ => inl (KeyError (PInt i))
  | _ => inl TypeError
  end.

(** [v.get(k, dflt)]: only dictionaries have the method. *)
Definition get_method (v : pyval) (k : string) (dflt : pyval) : exn + pyval :=
  match v with
  | PDict d => inr (default dflt (d !! k))
  | _ => inl (AttributeError "get")
  end.

(** The sequence a [for item in v] loop runs over.  Iterating a dictionary
    yields its keys, a string its characters. *)
Definition py_iter (v : pyval) : exn + list pyval :=
  match v with
  | PList l => inr l
  | PDict d => inr ((fun kv => PStr (fst kv)) <$> map_to_list d)
  | PStr s => inr (string_to_chars s)
  | _ => inl TypeError
  end.

(** A list comprehension [[f(x) for x in l]]: the first exception aborts. *)
Fixpoint comprehension {A B : Type} (f : A -> exn + B) (l : list A) : exn + list B :=
  match l with
  | [] => inr []
  | x :: l' =>
      match f x with
      | inl e => inl e
      | inr y =>
          match comprehension f l' with
          | inl e => inl e
          | inr ys => inr (y :: ys)
          end
      end
  end.

(** Truth values of the argument types that the code tests. *)
Definition str_truthy (s : string) : bool :=
  match s with EmptyString => false | String _ _ => true end.

Definition list_truthy {A : Type} (l : list A) : bool :=
  match l with [] => false | _ :: _ => true end.

Definition dict_truthy {V : Type} (d : gmap string V) : bool :=
  list_truthy (map_to_list d).

Definition opt_truthy {A : Type} (truthy : A -> bool) (o : option A) : bool :=
  match o with Some a => truthy a | None => false end.

(* ===================================================================== *)
(** ** Strings *)
(* ===================================================================== *)

Fixpoint char_in (a : Ascii.ascii) (chars : string) : bool :=
  match chars with
  | EmptyString => false
  | String c chars' => if Ascii.eqb a c then true else char_in a chars'
  end.

(** [s.rstrip(chars)]: remove the longest suffix of [s] made of characters
    that occur in [chars]. *)
Fixpoint rstrip (s : string) (chars : string) : string :=
  match s with
  | EmptyString => EmptyString
  | String a s' =>
      match rstrip s' chars with
      | EmptyString => if char_in a chars then EmptyString else String a EmptyString
      | r => String a r
      end
  end.

(** [c * n] for a one-character string. *)
Fixpoint str_repeat (c : Ascii.ascii) (n : nat) : string :=
  match n with
  | O => EmptyString
  | S n' => String c (str_repeat c n')
  end.

(** [str(v)] inside an f-string, for an optional string argument. *)
Definition format_opt_str (o : option string) : string :=
  match o with Some s => s | None => "None" end.

(* ===================================================================== *)
(** ** Effects: the transport, the log and exceptions *)
(* ===================================================================== *)

Record http_request : Type := {
  req_url : string;
  req_headers : gmap string string;
  req_json : pyval
}.

(** What the code reads from a response object: the status
    ([response.status_code] with requests, [response.status] with aiohttp),
    the body text, and the outcome of [response.json()]. *)
Record http_response : Type := {
  status_code : Z;
  text : string;
  json : exn + pyval
}.

(** [LogException prefix e] stands for [logger.error(f"{prefix}{str(e)}")]. *)
Inductive event : Type :=
| Post (r : http_request)
| LogInfo (msg : string)
| LogError (msg : string)
| LogException (prefix : string) (e : exn).

Definition transport : Type := http_request -> exn + http_response.

(** A computation reads the transport, appends to the trace and either
    raises or returns. *)
Definition IO (A : Type) : Type := transport -> list event * (exn + A).

#[export] Instance IO_ret : MRet IO := fun A a _ => ([], inr a).

#[export] Instance IO_bind : MBind IO := fun A B f m srv =>
  match m srv with
  | (t1, inl e) => (t1, inl e)
  | (t1, inr a) =>
      match f a srv with
      | (t2, r) => (t1 ++ t2, r)
      end
  end.

Definition raise {A : Type} (e : exn) : IO A := fun _ => ([], inl e).

Definition lift {A : Type} (r : exn + A) : IO A := fun _ => ([], r).

Definition emit (ev : event) : IO unit := fun _ => ([ev], inr tt).

(** [requests.post(url, headers=..., json=...)] and [session.post(...)]. *)
Definition post (r : http_request) : IO http_response :=
  fun srv => ([Post r], srv r).

(** [try: body  except Exception as e: logger.error(f"{prefix}{str(e)}"); raise] *)
Definition try_log {A : Type} (prefix : string) (body : IO A) : IO A :=
  fun srv =>
    match body srv with
    | (t, inl e) => (t ++ [LogException prefix e], inl e)
    | (t, inr a) => (t, inr a)
    end.

Definition trace_of {A : Type} (r : list event * (exn + A)) : list event := fst r.
Definition outcome {A : Type} (r : list event * (exn + A)) : exn + A := snd r.

Definition is_post (ev : event) : bool :=
  match ev with Post _ => true | _ => false end.

(** The number of network calls recorded in a trace. *)
Definition network_calls (t : list event) : nat := length (List.filter is_post t).

(* ===================================================================== *)
(** ** [server/utils/openai_client.py] *)
(* ===================================================================== *)

(** The default of the [host] and [base_url] constructor parameters. *)
Definition default_base_url : string := "https://api.openai.com/v1".

(** The operations of the client contract, as a caller invokes them on a
    client object: [client.chat(model, messages, options, format, tools)]
    and [client.embeddings(model, prompt)]. *)
Inductive client_call : Type :=
| CallChat (model : string) (messages : list pyval)
    (options : option (gmap string pyval))
    (format : option (gmap string pyval))
    (tools : option (list pyval))
| CallEmbeddings (model : string) (prompt : string).

Module AsyncClient.

Record t : Type := {
  host : string;
  api_key : option string;
  headers : gmap string string
}.

Definition __init__ (host : string) (api_key : option string) : t :=
  {| host := rstrip host "/";
     api_key := api_key;
     headers := {[ "Content-Type" := "application/json";
                   "Authorization" := "Bearer " +:+ format_opt_str api_key ]} |}.

Definition chat (self : t) (model : string) (messages : list pyval)
    (options : option (gmap string pyval))
    (format : option (gmap string pyval))
    (tools : option (list pyval)) : IO pyval :=
  (* options = options or {} *)
  let options :=
    if opt_truthy dict_truthy options then default ∅ options else ∅ in
  let request_data : gmap string pyval :=
    {[ "model" := PStr model;
       "messages" := PList messages;
       "temperature" := default (PFloat 0.7) (options !! "temperature");
       "max_tokens" := default PNone (options !! "num_predict") ]} in
  let request_data :=
    if opt_truthy dict_truthy format
    then <["response_format" := PDict {[ "type" := PStr "json_object" ]}]> request_data
    else request_data in
  let request_data :=
    if opt_truthy list_truthy tools
    then <["tools" := PList (default [] tools)]> request_data
    else request_data in
  try_log "Error calling OpenAI API: " (
    response ← post {| req_url := host self +:+ "/chat/completions";
                       req_headers := headers self;
                       req_json := PDict request_data |};
    if bool_decide (status_code response ≠ 200) then
      let error_text := text response in
      _ ← emit (LogError ("OpenAI API error: " +:+ error_text));
      raise (Exception ("OpenAI API error: " +:+ error_text))
    else
      result ← lift (json response);
      choices ← lift (getitem_str result "choices");
      choice ← lift (getitem_int choices 0);
      message ← lift (getitem_str choice "message");
      content ← lift (getitem_str message "content");
      tool_calls ← lift (get_method message "tool_calls" (PList []));
      mret (PDict {[ "model" := PStr model;
                     "message" := PDict {[ "role" := PStr "assistant";
                                           "content" := content ]};
                     "tool_calls" := tool_calls;
                     "done" := PBool true ]})).

Definition embeddings (self : t) (model : string) (prompt : string) : IO pyval :=
  let request_data : gmap string pyval :=
    {[ "model" := PStr model; "input" := PStr prompt ]} in
  try_log "Error getting embeddings from OpenAI API: " (
    response ← post {| req_url := host self +:+ "/embeddings";
                       req_headers := headers self;
                       req_json := PDict request_data |};
    if bool_decide (status_code response ≠ 200) then
      let error_text := text response in
      _ ← emit (LogError ("OpenAI API error: " +:+ error_text));
      raise (Exception ("OpenAI API error: " +:+ error_text))
    else
      result ← lift (json response);
      data ← lift (getitem_str result "data");
      item ← lift (getitem_int data 0);
      embedding ← lift (getitem_str item "embedding");
      mret (PDict {[ "embedding" := embedding ]})).

(** The methods the class body defines. *)
Definition methods : list string := ["__init__"; "chat"; "embeddings"].

(** Attribute lookup followed by the call. *)
Definition invoke (self : t) (c : client_call) : IO pyval :=
  match c with
  | CallChat model messages options format tools =>
      chat self model messages options format tools
  | CallEmbeddings model prompt => embeddings self model prompt
  end.

End AsyncClient.

Module Client.

Record t : Type := {
  host : string;
  api_key : option string;
  headers : gmap string string
}.

Definition __init__ (host : string) (api_key : option string) : t :=
  {| host := rstrip host "/";
     api_key := api_key;
     headers := {[ "Content-Type" := "application/json";
                   "Authorization" := "Bearer " +:+ format_opt_str api_key ]} |}.

Definition chat (self : t) (model : string) (messages : list pyval)
    (options : option (gmap string pyval))
    (format : option (gmap string pyval))
    (tools : option (list pyval)) : IO pyval :=
  (* options = options or {} *)
  let options :=
    if opt_truthy dict_truthy options then default ∅ options else ∅ in
  let request_data : gmap string pyval :=
    {[ "model" := PStr model;
       "messages" := PList messages;
       "temperature" := default (PFloat 0.7) (options !! "temperature");
       "max_tokens" := default PNone (options !! "num_predict") ]} in
  let request_data :=
    if opt_truthy dict_truthy format
    then <["response_format" := PDict {[ "type" := PStr "json_object" ]}]> request_data
    else request_data in
  let request_data :=
    if opt_truthy list_truthy tools
    then <["tools" := PList (default [] tools)]> request_data
    else request_data in
  try_log "Error calling OpenAI API: " (
    response ← post {| req_url := host self +:+ "/chat/completions";
                       req_headers := headers self;
                       req_json := PDict request_data |};
    if bool_decide (status_code response ≠ 200) then
      _ ← emit (LogError ("OpenAI API error: " +:+ text response));
      raise (Exception ("OpenAI API error: " +:+ text response))
    else
      result ← lift (json response);
      choices ← lift (getitem_str result "choices");
      choice ← lift (getitem_int choices 0);
      message ← lift (getitem_str choice "message");
      content ← lift (getitem_str message "content");
      tool_calls ← lift (get_method message "tool_calls" (PList []));
      mret (PDict {[ "model" := PStr model;
                     "message" := PDict {[ "role" := PStr "assistant";
                                           "content" := content ]};
                     "tool_calls" := tool_calls;
                     "done" := PBool true ]})).

(** The methods the class body defines: there is no [embeddings]. *)
Definition methods : list string := ["__init__"; "chat"].

(** Attribute lookup followed by the call; looking up a name the class
    does not define raises [AttributeError]. *)
Definition invoke (self : t) (c : client_call) : IO pyval :=
  match c with
  | CallChat model messages options format tools =>
      chat self model messages options format tools
  | CallEmbeddings _ _ => raise (AttributeError "embeddings")
  end.

End Client.

(* ===================================================================== *)
(** ** [server/utils/openai_embedding.py] *)
(* ===================================================================== *)

Module OpenAIEmbeddingFunction.

Record t : Type := {
  api_key : string;
  model_name : string;
  base_url : string;
  headers : gmap string string
}.

Definition default_model_name : string := "text-embedding-3-small".

Definition __init__ (api_key model_name base_url : string) : t :=
  {| api_key := api_key;
     model_name := model_name;
     base_url := rstrip base_url "/";
     headers := {[ "Content-Type" := "application/json";
                   "Authorization" := "Bearer " +:+ api_key ]} |}.

Definition __call__ (self : t) (texts : list string) : IO (list pyval) :=
  if negb (list_truthy texts) then mret []
  else
    try_log "Error getting embeddings from OpenAI API: " (
      response ← post {| req_url := base_url self +:+ "/embeddings";
                         req_headers := headers self;
                         req_json :=
                           PDict {[ "model" := PStr (model_name self);
                                    "input" := PList (PStr <$> texts) ]} |};
      if bool_decide (status_code response ≠ 200) then
        _ ← emit (LogError ("OpenAI API error: " +:+ text response));
        raise (Exception ("OpenAI API error: " +:+ text response))
      else
        result ← lift (json response);
        data ← lift (getitem_str result "data");
        items ← lift (py_iter data);
        embeddings ← lift (comprehension (fun item => getitem_str item "embedding") items);
        mret embeddings).

End OpenAIEmbeddingFunction.

(* ===================================================================== *)
(** ** [server/utils/client_factory.py] *)
(* ===================================================================== *)

(** The classes of the [ollama] and [chromadb] packages are third-party
    code: an instance is represented by the arguments its constructor
    received. *)
Record OllamaClient : Type := { ollama_host : string }.
Record AsyncOllamaClient : Type := { async_ollama_host : string }.
Record OllamaEmbeddingFunction : Type := {
  ollama_url : string;
  ollama_model_name : string
}.

(** A configuration is a dictionary; the entries the factory reads are
    declared [str] by [server/schemas/config.py]. *)
Abbreviation config := (gmap string string).

(** [config[key]] *)
Definition config_getitem (c : config) (key : string) : exn + string :=
  match c !! key with
  | Some v => inr v
  | None => inl (KeyError (PStr key))
  end.

(** [config.get("OPENAI_API_KEY") and config["OPENAI_API_KEY"] != "&nbsp;"] *)
Definition openai_key_configured (c : config) : IO bool :=
  if opt_truthy str_truthy (c !! "OPENAI_API_KEY") then
    key ← lift (config_getitem c "OPENAI_API_KEY");
    mret (bool_decide (key ≠ "&nbsp;"))
  else mret false.

Definition get_async_client (c : config) : IO (AsyncClient.t + AsyncOllamaClient) :=
  use_openai ← openai_key_configured c;
  if (use_openai : bool) then
    _ ← emit (LogInfo "Using OpenAI client");
    api_key ← lift (config_getitem c "OPENAI_API_KEY");
    mret (inl (AsyncClient.__init__
                 (default default_base_url (c !! "OPENAI_BASE_URL"))
                 (Some api_key)))
  else
    _ ← emit (LogInfo "Using Ollama client");
    host ← lift (config_getitem c "OLLAMA_BASE_URL");
    mret (inr {| async_ollama_host := host |}).

Definition get_client (c : config) : IO (Client.t + OllamaClient) :=
  use_openai ← openai_key_configured c;
  if (use_openai : bool) then
    _ ← emit (LogInfo "Using OpenAI client");
    api_key ← lift (config_getitem c "OPENAI_API_KEY");
    mret (inl (Client.__init__
                 (default default_base_url (c !! "OPENAI_BASE_URL"))
                 (Some api_key)))
  else
    _ ← emit (LogInfo "Using Ollama client");
    host ← lift (config_getitem c "OLLAMA_BASE_URL");
    mret (inr {| ollama_host := host |}).

Definition get_embedding_function (c : config)
    : IO (OpenAIEmbeddingFunction.t + OllamaEmbeddingFunction) :=
  use_openai ← openai_key_configured c;
  if (use_openai : bool) then
    _ ← emit (LogInfo "Using OpenAI embedding function");
    api_key ← lift (config_getitem c "OPENAI_API_KEY");
    mret (inl (OpenAIEmbeddingFunction.__init__
                 api_key
                 (default OpenAIEmbeddingFunction.default_model_name
                          (c !! "EMBEDDING_MODEL"))
                 (default default_base_url (c !! "OPENAI_BASE_URL"))))
  else
    _ ← emit (LogInfo "Using Ollama embedding function");
    base ← lift (config_getitem c "OLLAMA_BASE_URL");
    model ← lift (config_getitem c "EMBEDDING_MODEL");
    mret (inr {| ollama_url := base +:+ "/api/embeddings";
                 ollama_model_name := model |}).

(* ===================================================================== *)
(** ** Observations on runs *)
(* ===================================================================== *)

(** The requests a trace records, in the order they were issued. *)
Fixpoint requests_of (t : list event) : list http_request :=
  match t with
  | [] => []
  | Post r :: t' => r :: requests_of t'
  | _ :: t' => requests_of t'
  end.

(** [srv] answers [resp] to every request sent to [url]. *)
Definition answers (srv : transport) (url : string) (resp : http_response) : Prop :=
  forall r, req_url r = url -> srv r = inr resp.

(** The condition the specification gives for selecting the cloud provider:
    the cloud API key is present, non-empty and not the placeholder. *)
Definition cloud_key_present (c : config) : Prop :=
  exists k, c !! "OPENAI_API_KEY" = Some k /\ k ≠ "" /\ k ≠ "&nbsp;".

(** The body of the vendor's answer in the round-trip scenario. *)
Definition vendor_hi : pyval :=
  PDict {[ "choices" :=
             PList [ PDict {[ "message" :=
                                PDict {[ "role" := PStr "assistant";
                                         "content" := PStr "hi";
                                         "tool_calls" := PList [] ]} ]} ] ]}.

(** The canonical chat response with the given fields. *)
Definition canonical_chat (model : string) (role content tool_calls : pyval) : pyval :=
  PDict {[ "model" := PStr model;
           "message" := PDict {[ "role" := role; "content" := content ]};
           "tool_calls" := tool_calls;
           "done" := PBool true ]}.

(** The value a request body carries under key [k], if any. *)
Definition request_field (r : http_request) (k : string) : option pyval :=
  match req_json r with
  | PDict d => d !! k
  | _ => None
  end.

(** For each request of a run, the value it carries under key [k]. *)
Definition sent_fields {A : Type} (run : list event * (exn + A)) (k : string)
    : list (option pyval) :=
  (fun r => request_field r k) <$> requests_of (trace_of run).

(** A computation that issues no request. *)
Definition quiet {A : Type} (m : IO A) : Prop :=
  forall srv, requests_of (trace_of (m srv)) = [].

(** The run of an operation that the vendor refused: one request, the error
    body logged, then the exception logged again by the handler and
    propagated. *)
Definition provider_error {A : Type} (srv : transport) (prefix : string)
    (run : list event * (exn + A)) : Prop :=
  exists r resp,
    srv r = inr resp /\
    let e := Exception ("OpenAI API error: " +:+ text resp) in
    run = ([Post r; LogError ("OpenAI API error: " +:+ text resp);
            LogException prefix e], inl e).

(** The non-blocking client with the fields of a blocking one. *)
Definition as_async (cs : Client.t) : AsyncClient.t :=
  {| AsyncClient.host := Client.host cs;
     AsyncClient.api_key := Client.api_key cs;
     AsyncClient.headers := Client.headers cs |}.

(** [srv] answers every request with a status other than 200. *)
Definition refuses (srv : transport) : Prop :=
  forall r, exists resp, srv r = inr resp /\ status_code resp ≠ 200.

(** [item] is a result object carrying the vector [v]. *)
Definition carries_embedding (item v : pyval) : Prop :=
  exists o, item = PDict o /\ o !! "embedding" = Some v.

(** A vendor answer whose first choice has a role other than "assistant". *)
Definition vendor_other_role : pyval :=
  PDict {[ "choices" :=
             PList [ PDict {[ "message" :=
                                PDict {[ "role" := PStr "system";
                                         "content" := PStr "hi" ]} ]} ] ]}.

(** The role held by a canonical chat response. *)
Definition response_role (v : pyval) : exn + pyval :=
  match getitem_str v "message" with
  | inl e => inl e
  | inr m => getitem_str m "role"
  end.

(** The role of the first choice's message in a vendor answer. *)
Definition vendor_role (body : pyval) : exn + pyval :=
  match getitem_str body "choices" with
  | inl e => inl e
  | inr choices =>
      match getitem_int choices 0 with
      | inl e => inl e
      | inr choice => response_role choice
      end
  end.

(** The role of the canonical response a run returned. *)
Definition returned_role (r : exn + pyval) : exn + pyval :=
  match r with
  | inl e => inl e
  | inr v => response_role v
  end.

(** Transports and responses used in examples. *)
Definition always (resp : http_response) : transport := fun _ => inr resp.

Definition unreachable : transport :=
  fun _ => inl (TransportError "connection refused").

Definition ok_response (body : pyval) : http_response :=
  {| status_code := 200; text := "ok"; json := inr body |}.

Definition error_response (code : Z) (body : string) : http_response :=
  {| status_code := code; text := body; json := inl JSONDecodeError |}.

(** The three ways the part of an operation that follows the request can
    end: a value with nothing logged, an exception with nothing logged, or
    the vendor's error body logged and the provider error raised. *)
Definition handler_shape {A : Type} (run : list event * (exn + A)) : Prop :=
  (exists v, run = ([], inr v))
  \/ (exists e, run = ([], inl e))
  \/ (exists body,
        run = ([LogError ("OpenAI API error: " +:+ body)],
               inl (Exception ("OpenAI API error: " +:+ body)))).

(** The three ways an operation that sent request [r] can end: a value and
    no log record; an exception, logged by the handler; the provider error,
    logged with the vendor's body and again by the handler. *)
Definition exchange_shape {A : Type} (prefix : string) (r : http_request)
    (run : list event * (exn + A)) : Prop :=
  (exists v, run = ([Post r], inr v))
  \/ (exists e, run = ([Post r; LogException prefix e], inl e))
  \/ (exists body,
        run = ([Post r; LogError ("OpenAI API error: " +:+ body);
                LogException prefix (Exception ("OpenAI API error: " +:+ body))],
               inl (Exception ("OpenAI API error: " +:+ body)))).

(** The keys a chat request body can hold. *)
Definition chat_request_keys : list string :=
  ["model"; "messages"; "temperature"; "max_tokens"; "response_format"; "tools"].

(** Where a request goes and how it is authorized. *)
Definition request_envelope (r : http_request)
    : string * option string * option string :=
  (req_url r, req_headers r !! "Authorization", req_headers r !! "Content-Type").

(** [srv] fails with [e] on every request. *)
Definition fails_with (srv : transport) (e : exn) : Prop :=
  forall r, srv r = inl e.

(** The runs of [chat] in the two call modes, on clients built from the
    same constructor arguments. *)
Definition chat_runs (host : string) (key : option string)
    (model : string) (messages : list pyval)
    (options format : option (gmap string pyval)) (tools : option (list pyval))
    (srv : transport) : list (list event * (exn + pyval)) :=
  [ AsyncClient.chat (AsyncClient.__init__ host key)
      model messages options format tools srv;
    Client.chat (Client.__init__ host key)
      model messages options format tools srv ].

(** [v] is the canonical translation of an answer that [srv] gave, with
    status 200, to a request sent to [url]. *)
Definition translated_from_vendor (srv : transport) (url model : string)
    (v : pyval) : Prop :=
  exists r resp result choices choice message content tool_calls,
    req_url r = url
    /\ srv r = inr resp
    /\ status_code resp = 200
    /\ json resp = inr result
    /\ getitem_str result "choices" = inr choices
    /\ getitem_int choices 0 = inr choice
    /\ getitem_str choice "message" = inr message
    /\ getitem_str message "content" = inr content
    /\ get_method message "tool_calls" (PList []) = inr tool_calls
    /\ v = canonical_chat model (PStr "assistant") content tool_calls.

(** Unfold the monad down to pairs. *)
Ltac run_io :=
  unfold try_log, outcome, trace_of, mbind, IO_bind, mret, IO_ret,
    post, lift, raise, emit in *.

Create HintDb io discriminated.

(* ===================================================================== *)
(** ** Properties of [rstrip] *)
(* ===================================================================== *)

Example rstrip_url : rstrip "https://api.openai.com/v1//" "/" = "https://api.openai.com/v1".
Proof. reflexivity. Qed.

Example rstrip_inner_kept : rstrip "a/b/" "/" = "a/b".
Proof. reflexivity. Qed.

Example rstrip_all : rstrip "///" "/" = "".
Proof. reflexivity. Qed.




(** [rstrip] only removes a suffix. *)
Lemma rstrip_prefix (s chars : string) :
  exists suffix, s = rstrip s chars +:+ suffix.
Proof.
  induction s as [|b s [suffix IH]]; simpl.
  - exists "". reflexivity.
  - destruct (rstrip s chars) as [|b' r] eqn:E.
    + destruct (char_in b chars).
      * exists (String b s). reflexivity.
      * exists s. simpl in *. reflexivity.
    + exists suffix. rewrite IH at 1. reflexivity.
Qed.


(* ===================================================================== *)
(** ** The factory *)
(* ===================================================================== *)

Lemma str_truthy_nonempty (s : string) : str_truthy s = true <-> s ≠ "".
Proof. destruct s; simpl; split; intros; congruence. Qed.

(** The test of the factory computes the specification's condition and has
    no effect. *)
Lemma openai_key_configured_run (c : config) (srv : transport) :
  exists b : bool,
    openai_key_configured c srv = ([], inr b) /\ (b = true <-> cloud_key_present c).
Proof.
  unfold openai_key_configured, cloud_key_present, config_getitem.
  destruct (c !! "OPENAI_API_KEY") as [k|] eqn:Hk; simpl.
  - destruct (str_truthy k) eqn:Ht.
    + exists (bool_decide (k ≠ "&nbsp;")). split; [reflexivity|].
      rewrite bool_decide_eq_true. apply str_truthy_nonempty in Ht. split.
      * intros Hp. exists k. auto.
      * intros (k' & Hk' & _ & Hp). congruence.
    + exists false. split; [reflexivity|]. split; [discriminate|].
      intros (k' & Hk' & Hne & _). apply str_truthy_nonempty in Hne.
      congruence.
  - exists false. split; [reflexivity|]. split; [discriminate|].
    intros (k' & Hk' & _). discriminate.
Qed.

Lemma cloud_key_present_lookup (c : config) :
  cloud_key_present c -> exists k, c !! "OPENAI_API_KEY" = Some k.
Proof. intros (k & Hk & _). eauto. Qed.

(** Each factory function takes exactly one of two branches. *)
Lemma get_client_run (c : config) (srv : transport) :
  (cloud_key_present c /\
   exists k, c !! "OPENAI_API_KEY" = Some k /\
     get_client c srv =
       ([LogInfo "Using OpenAI client"],
        inr (inl (Client.__init__
                    (default default_base_url (c !! "OPENAI_BASE_URL")) (Some k)))))
  \/ (~ cloud_key_present c /\
      get_client c srv =
        ([LogInfo "Using Ollama client"],
         match c !! "OLLAMA_BASE_URL" with
         | Some h => inr (inr {| ollama_host := h |})
         | None => inl (KeyError (PStr "OLLAMA_BASE_URL"))
         end)).
Proof.
  destruct (openai_key_configured_run c srv) as (b & Hrun & Hb).
  unfold get_client. run_io. rewrite Hrun. destruct b.
  - left. assert (Hp : cloud_key_present c) by (apply Hb; reflexivity).
    split; [exact Hp|]. destruct (cloud_key_present_lookup c Hp) as [k Hk].
    exists k. split; [exact Hk|]. unfold config_getitem. rewrite Hk. reflexivity.
  - right. split; [intros Hp; apply Hb in Hp; discriminate|].
    unfold config_getitem. destruct (c !! "OLLAMA_BASE_URL"); reflexivity.
Qed.

Lemma get_async_client_run (c : config) (srv : transport) :
  (cloud_key_present c /\
   exists k, c !! "OPENAI_API_KEY" = Some k /\
     get_async_client c srv =
       ([LogInfo "Using OpenAI client"],
        inr (inl (AsyncClient.__init__
                    (default default_base_url (c !! "OPENAI_BASE_URL")) (Some k)))))
  \/ (~ cloud_key_present c /\
      get_async_client c srv =
        ([LogInfo "Using Ollama client"],
         match c !! "OLLAMA_BASE_URL" with
         | Some h => inr (inr {| async_ollama_host := h |})
         | None => inl (KeyError (PStr "OLLAMA_BASE_URL"))
         end)).
Proof.
  destruct (openai_key_configured_run c srv) as (b & Hrun & Hb).
  unfold get_async_client. run_io. rewrite Hrun. destruct b.
  - left. assert (Hp : cloud_key_present c) by (apply Hb; reflexivity).
    split; [exact Hp|]. destruct (cloud_key_present_lookup c Hp) as [k Hk].
    exists k. split; [exact Hk|]. unfold config_getitem. rewrite Hk. reflexivity.
  - right. split; [intros Hp; apply Hb in Hp; discriminate|].
    unfold config_getitem. destruct (c !! "OLLAMA_BASE_URL"); reflexivity.
Qed.

Lemma get_embedding_function_run (c : config) (srv : transport) :
  (cloud_key_present c /\
   exists k, c !! "OPENAI_API_KEY" = Some k /\
     get_embedding_function c srv =
       ([LogInfo "Using OpenAI embedding function"],
        inr (inl (OpenAIEmbeddingFunction.__init__ k
                    (default OpenAIEmbeddingFunction.default_model_name
                             (c !! "EMBEDDING_MODEL"))
                    (default default_base_url (c !! "OPENAI_BASE_URL"))))))
  \/ (~ cloud_key_present c /\
      get_embedding_function c srv =
        ([LogInfo "Using Ollama embedding function"],
         match c !! "OLLAMA_BASE_URL", c !! "EMBEDDING_MODEL" with
         | Some h, Some m =>
             inr (inr {| ollama_url := h +:+ "/api/embeddings";
                         ollama_model_name := m |})
         | None, _ => inl (KeyError (PStr "OLLAMA_BASE_URL"))
         | Some _, None => inl (KeyError (PStr "EMBEDDING_MODEL"))
         end)).
Proof.
  destruct (openai_key_configured_run c srv) as (b & Hrun & Hb).
  unfold get_embedding_function. run_io. rewrite Hrun. destruct b.
  - left. assert (Hp : cloud_key_present c) by (apply Hb; reflexivity).
    split; [exact Hp|]. destruct (cloud_key_present_lookup c Hp) as [k Hk].
    exists k. split; [exact Hk|]. unfold config_getitem. rewrite Hk. reflexivity.
  - right. split; [intros Hp; apply Hb in Hp; discriminate|].
    unfold config_getitem.
    destruct (c !! "OLLAMA_BASE_URL"); [|reflexivity].
    destruct (c !! "EMBEDDING_MODEL"); reflexivity.
Qed.

(** C1 (as amended).  Each of the three factory operations returns a cloud
    (OpenAI) adapter if and only if the cloud API key is present, non-empty
    and not the placeholder.  In every other case it takes the local branch:
    it returns the local (Ollama) adapter built from the entries that branch
    reads, and raises [KeyError] when such an entry is missing. *)
Theorem factory_selection (c : config) (srv : transport) :
  (cloud_key_present c <-> exists a, outcome (get_client c srv) = inr (inl a))
  /\ (cloud_key_present c <-> exists a, outcome (get_async_client c srv) = inr (inl a))
  /\ (cloud_key_present c <-> exists a, outcome (get_embedding_function c srv) = inr (inl a))
  /\ (~ cloud_key_present c ->
      outcome (get_client c srv) =
        match c !! "OLLAMA_BASE_URL" with
        | Some h => inr (inr {| ollama_host := h |})
        | None => inl (KeyError (PStr "OLLAMA_BASE_URL"))
        end
      /\ outcome (get_async_client c srv) =
        match c !! "OLLAMA_BASE_URL" with
        | Some h => inr (inr {| async_ollama_host := h |})
        | None => inl (KeyError (PStr "OLLAMA_BASE_URL"))
        end
      /\ outcome (get_embedding_function c srv) =
        match c !! "OLLAMA_BASE_URL", c !! "EMBEDDING_MODEL" with
        | Some h, Some m =>
            inr (inr {| ollama_url := h +:+ "/api/embeddings";
                        ollama_model_name := m |})
        | None, _ => inl (KeyError (PStr "OLLAMA_BASE_URL"))
        | Some _, None => inl (KeyError (PStr "EMBEDDING_MODEL"))
        end).
Proof.
  destruct (get_client_run c srv) as [(Hp1 & k1 & _ & E1) | (Hn1 & E1)];
  destruct (get_async_client_run c srv) as [(Hp2 & k2 & _ & E2) | (Hn2 & E2)];
  destruct (get_embedding_function_run c srv) as [(Hp3 & k3 & _ & E3) | (Hn3 & E3)];
  try contradiction; rewrite E1, E2, E3; unfold outcome; simpl.
  - repeat split; eauto; contradiction.
  - repeat split; try contradiction; try reflexivity.
    + intros [a Ha].
      destruct (c !! "OLLAMA_BASE_URL"); discriminate.
    + intros [a Ha].
      destruct (c !! "OLLAMA_BASE_URL"); discriminate.
    + intros [a Ha].
      destruct (c !! "OLLAMA_BASE_URL"); [|discriminate].
      destruct (c !! "EMBEDDING_MODEL"); discriminate.
Qed.

(** C1 (as stated) fails: with the placeholder key and no local base URL
    the configuration has no cloud key, yet no local adapter is returned. *)
Lemma factory_local_branch_needs_entries :
  let c : config := {[ "OPENAI_API_KEY" := "&nbsp;" ]} in
  ~ cloud_key_present c
  /\ outcome (get_client c unreachable) = inl (KeyError (PStr "OLLAMA_BASE_URL"))
  /\ outcome (get_async_client c unreachable) = inl (KeyError (PStr "OLLAMA_BASE_URL"))
  /\ outcome (get_embedding_function c unreachable) = inl (KeyError (PStr "OLLAMA_BASE_URL")).
Proof.
  repeat split; try reflexivity.
  intros (k & Hk & _ & Hp). apply Hp.
  rewrite lookup_singleton_eq in Hk. congruence.
Qed.

(** C9 (as amended).  When the factory selects the local provider it does
    not validate the base-URL entry.  An empty entry yields the local
    adapter bound to the empty endpoint (host [""] for the chat clients,
    URL ["/api/embeddings"] for the embedding function); construction fails
    exactly when the entry is missing from the configuration. *)
Theorem local_base_url_not_validated (c : config) (srv : transport) :
  ~ cloud_key_present c ->
  (c !! "OLLAMA_BASE_URL" = Some "" ->
     outcome (get_client c srv) = inr (inr {| ollama_host := "" |})
     /\ outcome (get_async_client c srv) = inr (inr {| async_ollama_host := "" |})
     /\ outcome (get_embedding_function c srv) =
          match c !! "EMBEDDING_MODEL" with
          | Some m => inr (inr {| ollama_url := "/api/embeddings";
                                  ollama_model_name := m |})
          | None => inl (KeyError (PStr "EMBEDDING_MODEL"))
          end)
  /\ ((exists e, outcome (get_client c srv) = inl e) <-> c !! "OLLAMA_BASE_URL" = None)
  /\ ((exists e, outcome (get_async_client c srv) = inl e) <-> c !! "OLLAMA_BASE_URL" = None).
Proof.
  intros Hn.
  destruct (get_client_run c srv) as [(Hp1 & _) | (_ & E1)]; [contradiction|].
  destruct (get_async_client_run c srv) as [(Hp2 & _) | (_ & E2)]; [contradiction|].
  destruct (get_embedding_function_run c srv) as [(Hp3 & _) | (_ & E3)]; [contradiction|].
  rewrite E1, E2, E3. unfold outcome. simpl.
  split; [|split].
  - intros Hurl. rewrite Hurl. repeat split.
  - destruct (c !! "OLLAMA_BASE_URL"); split; try discriminate; eauto.
    intros [e He]. discriminate.
  - destruct (c !! "OLLAMA_BASE_URL"); split; try discriminate; eauto.
    intros [e He]. discriminate.
Qed.

Lemma local_base_url_not_validated_witness :
  let c : config := {[ "OLLAMA_BASE_URL" := ""; "EMBEDDING_MODEL" := "nomic-embed-text" ]} in
  (c !! "OLLAMA_BASE_URL" = Some "" ->
     outcome (get_client c unreachable) = inr (inr {| ollama_host := "" |})
     /\ outcome (get_async_client c unreachable) = inr (inr {| async_ollama_host := "" |})
     /\ outcome (get_embedding_function c unreachable) =
          match c !! "EMBEDDING_MODEL" with
          | Some m => inr (inr {| ollama_url := "/api/embeddings";
                                  ollama_model_name := m |})
          | None => inl (KeyError (PStr "EMBEDDING_MODEL"))
          end)
  /\ ((exists e, outcome (get_client c unreachable) = inl e) <-> c !! "OLLAMA_BASE_URL" = None)
  /\ ((exists e, outcome (get_async_client c unreachable) = inl e) <-> c !! "OLLAMA_BASE_URL" = None).
Proof.
  apply (local_base_url_not_validated
           {[ "OLLAMA_BASE_URL" := ""; "EMBEDDING_MODEL" := "nomic-embed-text" ]}
           unreachable).
  intros (k & Hk & _). vm_compute in Hk. discriminate.
Defined.

(** C9 (as stated) fails: with an empty local base URL the three factory
    operations return adapters bound to the empty endpoint. *)
Lemma factory_accepts_empty_local_url :
  let c : config := {[ "OLLAMA_BASE_URL" := ""; "EMBEDDING_MODEL" := "nomic-embed-text" ]} in
  c !! "OLLAMA_BASE_URL" = Some ""
  /\ get_client c unreachable
     = ([LogInfo "Using Ollama client"], inr (inr {| ollama_host := "" |}))
  /\ get_async_client c unreachable
     = ([LogInfo "Using Ollama client"], inr (inr {| async_ollama_host := "" |}))
  /\ get_embedding_function c unreachable
     = ([LogInfo "Using Ollama embedding function"],
        inr (inr {| ollama_url := "/api/embeddings";
                    ollama_model_name := "nomic-embed-text" |})).
Proof. repeat split. Qed.

(* ===================================================================== *)
(** ** Traces: which computations reach the network *)
(* ===================================================================== *)

Lemma requests_of_app (t1 t2 : list event) :
  requests_of (t1 ++ t2) = requests_of t1 ++ requests_of t2.
Proof.
  induction t1 as [|ev t1 IH]; simpl; [reflexivity|].
  destruct ev; simpl; rewrite IH; reflexivity.
Qed.

Lemma quiet_ret {A : Type} (a : A) : quiet (mret a).
Proof. intros srv. reflexivity. Qed.

Lemma quiet_lift {A : Type} (r : exn + A) : quiet (lift r).
Proof. intros srv. reflexivity. Qed.

Lemma quiet_raise {A : Type} (e : exn) : quiet (@raise A e).
Proof. intros srv. reflexivity. Qed.

Lemma quiet_emit_error (msg : string) : quiet (emit (LogError msg)).
Proof. intros srv. reflexivity. Qed.

Lemma quiet_emit_info (msg : string) : quiet (emit (LogInfo msg)).
Proof. intros srv. reflexivity. Qed.

Lemma quiet_bind {A B : Type} (m : IO A) (f : A -> IO B) :
  quiet m -> (forall a, quiet (f a)) -> quiet (m ≫= f).
Proof.
  intros Hm Hf srv. specialize (Hm srv). unfold trace_of in *.
  unfold mbind, IO_bind. destruct (m srv) as [t1 [e|a]]; simpl in *.
  - exact Hm.
  - specialize (Hf a srv). unfold trace_of in Hf.
    destruct (f a srv) as [t2 r]. simpl in *.
    rewrite requests_of_app, Hm, Hf. reflexivity.
Qed.

Lemma quiet_if {A : Type} (b : bool) (m1 m2 : IO A) :
  quiet m1 -> quiet m2 -> quiet (if b then m1 else m2).
Proof. destruct b; auto. Qed.

#[local] Hint Resolve quiet_ret quiet_lift quiet_raise quiet_emit_error
  quiet_emit_info quiet_if : io.
#[local] Hint Extern 2 (quiet (_ ≫= _)) => apply quiet_bind; [|intros] : io.

(** An exchange: one request, then a continuation that stays off the
    network.  Exactly that request is recorded. *)
Lemma exchange_requests {A : Type} (prefix : string) (r : http_request)
    (k : http_response -> IO A) (srv : transport) :
  (forall resp, quiet (k resp)) ->
  requests_of (trace_of (try_log prefix (post r ≫= k) srv)) = [r].
Proof.
  intros Hk. run_io. destruct (srv r) as [e|resp]; simpl.
  - reflexivity.
  - specialize (Hk resp srv). unfold trace_of in Hk.
    destruct (k resp srv) as [t [e|a]]; simpl in *.
    + rewrite requests_of_app, Hk. reflexivity.
    + rewrite Hk. reflexivity.
Qed.

(** The request that [chat] sends, for both call modes. *)
Lemma async_chat_requests (self : AsyncClient.t) model messages options format tools srv :
  exists d,
    requests_of (trace_of (AsyncClient.chat self model messages options format tools srv))
    = [ {| req_url := AsyncClient.host self +:+ "/chat/completions";
           req_headers := AsyncClient.headers self;
           req_json := PDict d |} ]
    /\ d !! "model" = Some (PStr model)
    /\ d !! "messages" = Some (PList messages)
    /\ d !! "temperature"
       = Some (default (PFloat 0.7) (default ∅ options !! "temperature"))
    /\ d !! "max_tokens"
       = Some (default PNone (default ∅ options !! "num_predict")).
Proof.
  unfold AsyncClient.chat. eexists. split.
  - apply exchange_requests. intros resp. auto 12 with io.
  - assert (Ho : (if opt_truthy dict_truthy options then default ∅ options else ∅)
                 = default ∅ options).
    { destruct options as [o|]; simpl; [|reflexivity].
      unfold dict_truthy. destruct (map_to_list o) eqn:E; simpl; [|reflexivity].
      apply map_to_list_empty_iff in E. congruence. }
    rewrite Ho.
    destruct (opt_truthy list_truthy tools), (opt_truthy dict_truthy format);
      repeat split; by simplify_map_eq.
Qed.

Lemma sync_chat_is_async_chat (cs : Client.t) (ca : AsyncClient.t)
    model messages options format tools srv :
  Client.host cs = AsyncClient.host ca ->
  Client.headers cs = AsyncClient.headers ca ->
  Client.chat cs model messages options format tools srv
  = AsyncClient.chat ca model messages options format tools srv.
Proof.
  intros Hh Hd. unfold Client.chat, AsyncClient.chat. rewrite Hh, Hd. reflexivity.
Qed.

(** C7.  Called with the empty sequence, the embedding function returns the
    empty list as a result and performs no network call; nothing is logged
    either. *)
Theorem embed_empty_no_network (self : OpenAIEmbeddingFunction.t) (srv : transport) :
  outcome (OpenAIEmbeddingFunction.__call__ self [] srv) = inr []
  /\ network_calls (trace_of (OpenAIEmbeddingFunction.__call__ self [] srv)) = 0%nat
  /\ trace_of (OpenAIEmbeddingFunction.__call__ self [] srv) = [].
Proof. repeat split. Qed.

(* ===================================================================== *)
(** ** Request translation of [chat] *)
(* ===================================================================== *)

(** C2 (as amended).  For every options mapping, the request that [chat]
    sends carries [temperature] equal to [options["temperature"]] (0.7 when
    absent) and [max_tokens] equal to [options["num_predict"]] when that key
    is present; when it is absent the [max_tokens] field is still sent, with
    the value [None] (JSON null).  This holds in both call modes. *)
Theorem chat_option_mapping (ca : AsyncClient.t) (cs : Client.t)
    (model : string) (messages : list pyval)
    (options format : option (gmap string pyval)) (tools : option (list pyval))
    (srv : transport) :
  let o : gmap string pyval := default ∅ options in
  sent_fields (AsyncClient.chat ca model messages options format tools srv) "temperature"
    = [Some (default (PFloat 0.7) (o !! "temperature"))]
  /\ sent_fields (AsyncClient.chat ca model messages options format tools srv) "max_tokens"
    = [Some (default PNone (o !! "num_predict"))]
  /\ sent_fields (Client.chat cs model messages options format tools srv) "temperature"
    = [Some (default (PFloat 0.7) (o !! "temperature"))]
  /\ sent_fields (Client.chat cs model messages options format tools srv) "max_tokens"
    = [Some (default PNone (o !! "num_predict"))].
Proof.
  intros o. unfold sent_fields.
  rewrite (sync_chat_is_async_chat cs (as_async cs)) by reflexivity.
  destruct (async_chat_requests ca model messages options format tools srv)
    as (d & -> & _ & _ & Ht & Hm).
  destruct (async_chat_requests (as_async cs) model messages options format tools srv)
    as (d' & -> & _ & _ & Ht' & Hm').
  simpl. unfold request_field. simpl.
  rewrite Ht, Hm, Ht', Hm'. repeat split.
Qed.

(** C2 (as stated) fails: with options that give a temperature and no
    [num_predict], the request still has a [max_tokens] field, holding
    [None]. *)
Lemma chat_sends_null_max_tokens :
  let ca := AsyncClient.__init__ default_base_url (Some "sk-test") in
  let cs := Client.__init__ default_base_url (Some "sk-test") in
  let options : gmap string pyval := {[ "temperature" := PFloat 0.2 ]} in
  options !! "num_predict" = None
  /\ sent_fields (AsyncClient.chat ca "gpt-4o-mini" [] (Some options) None None unreachable)
       "max_tokens" = [Some PNone]
  /\ sent_fields (Client.chat cs "gpt-4o-mini" [] (Some options) None None unreachable)
       "max_tokens" = [Some PNone]
  /\ sent_fields (AsyncClient.chat ca "gpt-4o-mini" [] None None None unreachable)
       "max_tokens" = [Some PNone].
Proof. repeat split. Qed.

Example chat_options_example :
  let ca := AsyncClient.__init__ default_base_url (Some "sk-test") in
  let options : gmap string pyval :=
    {[ "temperature" := PFloat 0.2; "num_predict" := PInt 50 ]} in
  sent_fields (AsyncClient.chat ca "gpt-4o-mini" [] (Some options) None None unreachable)
    "temperature" = [Some (PFloat 0.2)]
  /\ sent_fields (AsyncClient.chat ca "gpt-4o-mini" [] (Some options) None None unreachable)
    "max_tokens" = [Some (PInt 50)].
Proof. repeat split. Qed.

(* ===================================================================== *)
(** ** Blocking and non-blocking clients *)
(* ===================================================================== *)

(** C3 (as amended).  The cloud adapter offers [chat] in both the blocking
    and the non-blocking call mode, and [embeddings] in the non-blocking
    mode.  For identical inputs the two [chat] variants issue the same
    request, write the same log records and produce the same result. *)
Theorem chat_call_modes_agree (host : string) (key : option string)
    (model : string) (messages : list pyval)
    (options format : option (gmap string pyval)) (tools : option (list pyval))
    (srv : transport) :
  Client.invoke (Client.__init__ host key)
    (CallChat model messages options format tools) srv
  = AsyncClient.invoke (AsyncClient.__init__ host key)
      (CallChat model messages options format tools) srv
  /\ "chat" ∈ Client.methods
  /\ "chat" ∈ AsyncClient.methods
  /\ "embeddings" ∈ AsyncClient.methods.
Proof.
  split.
  - simpl. apply sync_chat_is_async_chat; reflexivity.
  - unfold Client.methods, AsyncClient.methods.
    repeat split; rewrite !elem_of_cons; auto.
Qed.

(** C3 (as stated) fails: the blocking client has no [embeddings]
    operation.  Where the non-blocking client returns the embedding, the
    same call on the blocking client raises [AttributeError] without
    sending anything. *)
Lemma blocking_client_lacks_embeddings :
  let body := PDict {[ "data" := PList [ PDict {[ "embedding" := PList [PInt 1; PInt 2] ]} ] ]} in
  let srv := always (ok_response body) in
  AsyncClient.invoke (AsyncClient.__init__ default_base_url (Some "sk-test"))
    (CallEmbeddings "text-embedding-3-small" "hello") srv
  = ([Post {| req_url := "https://api.openai.com/v1/embeddings";
              req_headers := {[ "Content-Type" := "application/json";
                                "Authorization" := "Bearer sk-test" ]};
              req_json := PDict {[ "model" := PStr "text-embedding-3-small";
                                   "input" := PStr "hello" ]} |}],
     inr (PDict {[ "embedding" := PList [PInt 1; PInt 2] ]}))
  /\ Client.invoke (Client.__init__ default_base_url (Some "sk-test"))
       (CallEmbeddings "text-embedding-3-small" "hello") srv
     = ([], inl (AttributeError "embeddings"))
  /\ "embeddings" ∉ Client.methods.
Proof.
  repeat split.
  unfold Client.methods. rewrite !elem_of_cons, elem_of_nil.
  intros [H | [H | H]]; [discriminate | discriminate | exact H].
Qed.

(* ===================================================================== *)
(** ** Response translation of [chat] *)
(* ===================================================================== *)

Lemma list_index_head {A : Type} (x : A) (l : list A) : list_index (x :: l) 0 = Some x.
Proof.
  unfold list_index. rewrite bool_decide_eq_true_2; [reflexivity|].
  rewrite length_cons. lia.
Qed.

(** What [chat] returns when the vendor answers 200 with a body whose first
    choice holds a message with a content. *)
Lemma async_chat_translation (self : AsyncClient.t)
    model messages options format tools srv resp d ch rest msg content :
  answers srv (AsyncClient.host self +:+ "/chat/completions") resp ->
  status_code resp = 200 ->
  json resp = inr (PDict d) ->
  d !! "choices" = Some (PList (PDict ch :: rest)) ->
  ch !! "message" = Some (PDict msg) ->
  msg !! "content" = Some content ->
  outcome (AsyncClient.chat self model messages options format tools srv)
  = inr (canonical_chat model (PStr "assistant") content
           (default (PList []) (msg !! "tool_calls"))).
Proof.
  intros Hsrv Hst Hjs Hd Hch Hmsg.
  unfold AsyncClient.chat. run_io.
  rewrite Hsrv by reflexivity. rewrite Hst.
  rewrite bool_decide_eq_false_2 by (intros H; apply H; reflexivity).
  rewrite Hjs. unfold getitem_str at 1. rewrite Hd.
  unfold getitem_int. rewrite list_index_head.
  unfold getitem_str at 1. rewrite Hch.
  unfold getitem_str, get_method. rewrite Hmsg.
  reflexivity.
Qed.

(** C4.  For a chat call with model [m], when the vendor answers status 200
    with body {choices:[{message:{role:"assistant",content:"hi",
    tool_calls:[]}}]}, the operation returns exactly {model: m, message:
    {role:"assistant", content:"hi"}, tool_calls: [], done: true}, in both
    call modes. *)
Theorem chat_round_trip (host : string) (key : option string)
    (m : string) (messages : list pyval)
    (options format : option (gmap string pyval)) (tools : option (list pyval))
    (srv : transport) (resp : http_response) :
  answers srv (rstrip host "/" +:+ "/chat/completions") resp ->
  status_code resp = 200 ->
  json resp = inr vendor_hi ->
  outcome (AsyncClient.chat (AsyncClient.__init__ host key) m messages options format tools srv)
  = inr (PDict {[ "model" := PStr m;
                  "message" := PDict {[ "role" := PStr "assistant";
                                        "content" := PStr "hi" ]};
                  "tool_calls" := PList [];
                  "done" := PBool true ]})
  /\ outcome (Client.chat (Client.__init__ host key) m messages options format tools srv)
  = inr (PDict {[ "model" := PStr m;
                  "message" := PDict {[ "role" := PStr "assistant";
                                        "content" := PStr "hi" ]};
                  "tool_calls" := PList [];
                  "done" := PBool true ]}).
Proof.
  intros Hsrv Hst Hjs.
  rewrite (sync_chat_is_async_chat (Client.__init__ host key) (AsyncClient.__init__ host key))
    by reflexivity.
  pose proof (async_chat_translation (AsyncClient.__init__ host key)
                m messages options format tools srv resp
                {[ "choices" :=
                     PList [ PDict {[ "message" :=
                                        PDict {[ "role" := PStr "assistant";
                                                 "content" := PStr "hi";
                                                 "tool_calls" := PList [] ]} ]} ] ]}
                {[ "message" := PDict {[ "role" := PStr "assistant";
                                         "content" := PStr "hi";
                                         "tool_calls" := PList [] ]} ]}
                []
                {[ "role" := PStr "assistant"; "content" := PStr "hi";
                   "tool_calls" := PList [] ]}
                (PStr "hi") Hsrv Hst Hjs eq_refl eq_refl eq_refl) as H.
  split; exact H.
Qed.

Lemma chat_round_trip_witness :
  outcome (AsyncClient.chat (AsyncClient.__init__ "https://api.openai.com/v1/" (Some "sk-test"))
             "gpt-4o-mini" [PDict {[ "role" := PStr "user"; "content" := PStr "hello" ]}]
             None None None (always (ok_response vendor_hi)))
  = inr (PDict {[ "model" := PStr "gpt-4o-mini";
                  "message" := PDict {[ "role" := PStr "assistant";
                                        "content" := PStr "hi" ]};
                  "tool_calls" := PList [];
                  "done" := PBool true ]})
  /\ outcome (Client.chat (Client.__init__ "https://api.openai.com/v1/" (Some "sk-test"))
             "gpt-4o-mini" [PDict {[ "role" := PStr "user"; "content" := PStr "hello" ]}]
             None None None (always (ok_response vendor_hi)))
  = inr (PDict {[ "model" := PStr "gpt-4o-mini";
                  "message" := PDict {[ "role" := PStr "assistant";
                                        "content" := PStr "hi" ]};
                  "tool_calls" := PList [];
                  "done" := PBool true ]}).
Proof.
  apply (chat_round_trip "https://api.openai.com/v1/" (Some "sk-test") "gpt-4o-mini"
           [PDict {[ "role" := PStr "user"; "content" := PStr "hello" ]}]
           None None None (always (ok_response vendor_hi)) (ok_response vendor_hi)).
  - intros r _. reflexivity.
  - reflexivity.
  - reflexivity.
Defined.

(** C5 (as amended).  For every successful vendor chat response, the
    canonical response's message content equals the content of the first
    completion choice's message; its role is the fixed string "assistant",
    whatever role the vendor sent; its tool_calls equal that message's
    [tool_calls] entry (the empty sequence when the entry is absent); and
    its completion flag is true.  This holds in both call modes. *)
Theorem chat_response_translation (host : string) (key : option string)
    (model : string) (messages : list pyval)
    (options format : option (gmap string pyval)) (tools : option (list pyval))
    (srv : transport) (resp : http_response)
    (d ch msg : gmap string pyval) (rest : list pyval) (content : pyval) :
  answers srv (rstrip host "/" +:+ "/chat/completions") resp ->
  status_code resp = 200 ->
  json resp = inr (PDict d) ->
  d !! "choices" = Some (PList (PDict ch :: rest)) ->
  ch !! "message" = Some (PDict msg) ->
  msg !! "content" = Some content ->
  let expected :=
    PDict {[ "model" := PStr model;
             "message" := PDict {[ "role" := PStr "assistant"; "content" := content ]};
             "tool_calls" := default (PList []) (msg !! "tool_calls");
             "done" := PBool true ]} in
  outcome (AsyncClient.chat (AsyncClient.__init__ host key)
             model messages options format tools srv) = inr expected
  /\ outcome (Client.chat (Client.__init__ host key)
             model messages options format tools srv) = inr expected.
Proof.
  intros Hsrv Hst Hjs Hd Hch Hmsg expected.
  rewrite (sync_chat_is_async_chat (Client.__init__ host key) (AsyncClient.__init__ host key))
    by reflexivity.
  split;
    eapply (async_chat_translation (AsyncClient.__init__ host key)); eassumption.
Qed.

Lemma chat_response_translation_witness :
  let expected :=
    PDict {[ "model" := PStr "gpt-4o-mini";
             "message" := PDict {[ "role" := PStr "assistant"; "content" := PStr "hi" ]};
             "tool_calls" := PList [];
             "done" := PBool true ]} in
  outcome (AsyncClient.chat (AsyncClient.__init__ default_base_url (Some "sk-test"))
             "gpt-4o-mini" [] None None None (always (ok_response vendor_other_role)))
  = inr expected
  /\ outcome (Client.chat (Client.__init__ default_base_url (Some "sk-test"))
             "gpt-4o-mini" [] None None None (always (ok_response vendor_other_role)))
  = inr expected.
Proof.
  refine (chat_response_translation default_base_url (Some "sk-test") "gpt-4o-mini" []
           None None None (always (ok_response vendor_other_role))
           (ok_response vendor_other_role)
           {[ "choices" :=
                PList [ PDict {[ "message" :=
                                   PDict {[ "role" := PStr "system";
                                            "content" := PStr "hi" ]} ]} ] ]}
           {[ "message" := PDict {[ "role" := PStr "system"; "content" := PStr "hi" ]} ]}
           {[ "role" := PStr "system"; "content" := PStr "hi" ]}
           [] (PStr "hi") _ _ _ _ _ _).
  - intros r _. reflexivity.
  - reflexivity.
  - reflexivity.
  - reflexivity.
  - reflexivity.
  - reflexivity.
Defined.

(** C5 (as stated) fails: the vendor's first choice has role "system", and
    the canonical response has role "assistant". *)
Lemma chat_role_is_fixed :
  let ca := AsyncClient.__init__ default_base_url (Some "sk-test") in
  let cs := Client.__init__ default_base_url (Some "sk-test") in
  let srv := always (ok_response vendor_other_role) in
  let run := AsyncClient.chat ca "gpt-4o-mini" [] None None None srv in
  let run' := Client.chat cs "gpt-4o-mini" [] None None None srv in
  vendor_role vendor_other_role = inr (PStr "system")
  /\ returned_role (outcome run) = inr (PStr "assistant")
  /\ returned_role (outcome run') = inr (PStr "assistant")
  /\ PStr "system" ≠ PStr "assistant".
Proof. repeat split. discriminate. Qed.

(* ===================================================================== *)
(** ** The embedding function *)
(* ===================================================================== *)

Lemma comprehension_embeddings (items vectors : list pyval) :
  Forall2 carries_embedding items vectors ->
  comprehension (fun item => getitem_str item "embedding") items = inr vectors.
Proof.
  induction 1 as [|item v items vectors (o & -> & Ho) _ IH]; simpl.
  - reflexivity.
  - rewrite Ho, IH. reflexivity.
Qed.

Lemma comprehension_length {A B : Type} (f : A -> exn + B) (l : list A) (out : list B) :
  comprehension f l = inr out -> length out = length l.
Proof.
  revert out. induction l as [|x l IH]; simpl; intros out H.
  - inversion H. reflexivity.
  - destruct (f x); [discriminate|].
    destruct (comprehension f l) as [|ys]; [discriminate|].
    inversion H. simpl. f_equal. apply IH. reflexivity.
Qed.

(** C6.  For a batch of N texts, when the vendor answers 200 with a [data]
    list of N result objects, the embedding function returns exactly N
    vectors, and the vector at each position is the embedding of the result
    object at that position: nothing is reordered, dropped or duplicated. *)
Theorem embed_preserves_order (self : OpenAIEmbeddingFunction.t)
    (texts : list string) (srv : transport) (resp : http_response)
    (d : gmap string pyval) (items vectors : list pyval) :
  answers srv (OpenAIEmbeddingFunction.base_url self +:+ "/embeddings") resp ->
  status_code resp = 200 ->
  json resp = inr (PDict d) ->
  d !! "data" = Some (PList items) ->
  length items = length texts ->
  Forall2 carries_embedding items vectors ->
  outcome (OpenAIEmbeddingFunction.__call__ self texts srv) = inr vectors
  /\ length vectors = length texts
  /\ (forall (i : nat) (item : pyval),
        items !! i = Some item ->
        exists v, vectors !! i = Some v /\ getitem_str item "embedding" = inr v).
Proof.
  intros Hsrv Hst Hjs Hd Hlen Hall.
  split; [|split].
  - unfold OpenAIEmbeddingFunction.__call__.
    destruct texts as [|t texts]; simpl.
    + destruct items; [|discriminate]. inversion Hall. reflexivity.
    + run_io. rewrite Hsrv by reflexivity. rewrite Hst.
      rewrite bool_decide_eq_false_2 by (intros H; apply H; reflexivity).
      rewrite Hjs. unfold getitem_str at 1. rewrite Hd. simpl.
      rewrite (comprehension_embeddings _ _ Hall). reflexivity.
  - rewrite <- Hlen. symmetry. eapply Forall2_length. exact Hall.
  - intros i item Hi.
    destruct (Forall2_lookup_l _ _ _ _ _ Hall Hi) as (v & Hv & o & -> & Ho).
    exists v. split; [exact Hv|]. simpl. rewrite Ho. reflexivity.
Qed.

Lemma embed_preserves_order_witness :
  let ef := OpenAIEmbeddingFunction.__init__ "sk-test" "text-embedding-3-small"
              default_base_url in
  let items := [ PDict {[ "index" := PInt 0; "embedding" := PList [PInt 1; PInt 2] ]};
                 PDict {[ "index" := PInt 1; "embedding" := PList [PInt 3; PInt 4] ]} ] in
  let vectors := [ PList [PInt 1; PInt 2]; PList [PInt 3; PInt 4] ] in
  let srv := always (ok_response (PDict {[ "data" := PList items ]})) in
  outcome (OpenAIEmbeddingFunction.__call__ ef ["first"; "second"] srv) = inr vectors
  /\ length vectors = length ["first"; "second"]
  /\ (forall (i : nat) (item : pyval),
        items !! i = Some item ->
        exists v, vectors !! i = Some v /\ getitem_str item "embedding" = inr v).
Proof.
  intros ef items vectors srv.
  refine (embed_preserves_order ef ["first"; "second"] srv
            (ok_response (PDict {[ "data" := PList items ]}))
            {[ "data" := PList items ]} items vectors _ _ _ _ _ _).
  - intros r _. reflexivity.
  - reflexivity.
  - reflexivity.
  - reflexivity.
  - reflexivity.
  - repeat constructor; eexists; (split; [reflexivity|reflexivity]).
Defined.

(* ===================================================================== *)
(** ** Vendor errors *)
(* ===================================================================== *)

(** C8.  If the vendor answers with a status other than 200, every cloud
    adapter operation ([chat] in both call modes, [embeddings], and the
    embedding function on a non-empty batch) logs the vendor's error body
    and raises a provider error carrying it; no response value is
    returned. *)
Theorem non_200_raises_provider_error
    (ca : AsyncClient.t) (cs : Client.t) (ef : OpenAIEmbeddingFunction.t)
    (model : string) (messages : list pyval)
    (options format : option (gmap string pyval)) (tools : option (list pyval))
    (prompt : string) (texts : list string) (srv : transport) :
  refuses srv ->
  provider_error srv "Error calling OpenAI API: "
    (AsyncClient.chat ca model messages options format tools srv)
  /\ provider_error srv "Error calling OpenAI API: "
    (Client.chat cs model messages options format tools srv)
  /\ provider_error srv "Error getting embeddings from OpenAI API: "
    (AsyncClient.embeddings ca model prompt srv)
  /\ (texts ≠ [] ->
      provider_error srv "Error getting embeddings from OpenAI API: "
        (OpenAIEmbeddingFunction.__call__ ef texts srv)).
Proof.
  intros Hrej.
  assert (Hstep : forall (A : Type) prefix r (k : http_response -> IO A),
            provider_error srv prefix
              (try_log prefix
                 (response ← post r;
                  if bool_decide (status_code response ≠ 200)
                  then _ ← emit (LogError ("OpenAI API error: " +:+ text response));
                       raise (Exception ("OpenAI API error: " +:+ text response))
                  else k response) srv)).
  { intros A prefix r k. destruct (Hrej r) as (resp & Hr & Hst).
    exists r, resp. split; [exact Hr|]. run_io. rewrite Hr.
    rewrite bool_decide_eq_true_2 by exact Hst. reflexivity. }
  repeat split.
  - apply Hstep.
  - rewrite (sync_chat_is_async_chat cs (as_async cs)) by reflexivity. apply Hstep.
  - apply Hstep.
  - intros Hne. unfold OpenAIEmbeddingFunction.__call__.
    destruct texts as [|t texts]; [contradiction|]. simpl. apply Hstep.
Qed.

Lemma non_200_raises_provider_error_witness :
  let srv := always (error_response 401 "invalid api key") in
  provider_error srv "Error calling OpenAI API: "
    (AsyncClient.chat (AsyncClient.__init__ default_base_url (Some "bad"))
       "gpt-4o-mini" [] None None None srv)
  /\ provider_error srv "Error calling OpenAI API: "
    (Client.chat (Client.__init__ default_base_url (Some "bad"))
       "gpt-4o-mini" [] None None None srv)
  /\ provider_error srv "Error getting embeddings from OpenAI API: "
    (AsyncClient.embeddings (AsyncClient.__init__ default_base_url (Some "bad"))
       "gpt-4o-mini" "hello" srv)
  /\ (["hello"] ≠ [] ->
      provider_error srv "Error getting embeddings from OpenAI API: "
        (OpenAIEmbeddingFunction.__call__
           (OpenAIEmbeddingFunction.__init__ "bad" "text-embedding-3-small" default_base_url)
           ["hello"] srv)).
Proof.
  intros srv.
  apply (non_200_raises_provider_error
           (AsyncClient.__init__ default_base_url (Some "bad"))
           (Client.__init__ default_base_url (Some "bad"))
           (OpenAIEmbeddingFunction.__init__ "bad" "text-embedding-3-small" default_base_url)
           "gpt-4o-mini" [] None None None "hello" ["hello"] srv).
  intros r. exists (error_response 401 "invalid api key").
  split; [reflexivity|]. simpl. lia.
Defined.

Example refused_chat_run :
  AsyncClient.chat (AsyncClient.__init__ default_base_url (Some "bad"))
    "gpt-4o-mini" [] None None None (always (error_response 401 "invalid api key"))
  = ([Post {| req_url := "https://api.openai.com/v1/chat/completions";
              req_headers := {[ "Content-Type" := "application/json";
                                "Authorization" := "Bearer bad" ]};
              req_json := PDict {[ "model" := PStr "gpt-4o-mini";
                                   "messages" := PList [];
                                   "temperature" := PFloat 0.7;
                                   "max_tokens" := PNone ]} |};
      LogError "OpenAI API error: invalid api key";
      LogException "Error calling OpenAI API: "
        (Exception "OpenAI API error: invalid api key")],
     inl (Exception "OpenAI API error: invalid api key")).
Proof. reflexivity. Qed.


(* ===================================================================== *)
(** ** Further properties: base-URL normalization *)
(* ===================================================================== *)

Lemma rstrip_idempotent (s chars : string) :
  rstrip (rstrip s chars) chars = rstrip s chars.
Proof.
  induction s as [|a s IH]; simpl; [reflexivity|].
  destruct (rstrip s chars) as [|b r] eqn:E.
  - destruct (char_in a chars) eqn:Ha; simpl; [reflexivity|].
    rewrite Ha. reflexivity.
  - change (rstrip (String a (String b r)) chars)
      with (match rstrip (String b r) chars with
            | EmptyString => if char_in a chars then EmptyString else String a EmptyString
            | r' => String a r'
            end).
    rewrite IH. reflexivity.
Qed.

Lemma rstrip_slash_decompose (s : string) :
  exists n, s = rstrip s "/" +:+ str_repeat "/"%char n.
Proof.
  induction s as [|a s [n IH]]; simpl.
  - exists 0%nat. reflexivity.
  - destruct (rstrip s "/") as [|b r] eqn:E.
    + destruct (Ascii.eqb a "/") eqn:Ha.
      * apply Ascii.eqb_eq in Ha. subst a. exists (S n).
        rewrite IH at 1. reflexivity.
      * exists n. rewrite IH at 1. reflexivity.
    + exists n. rewrite IH at 1. reflexivity.
Qed.

(** X1.  Construction removes nothing but trailing slashes: the base URL
    given to a constructor is the stored host followed by some number of
    slashes, for the two chat clients and the embedding function. *)
Theorem stored_host_is_base_minus_slashes
    (base : string) (key : option string) (api_key model_name : string) :
  exists n,
    base = AsyncClient.host (AsyncClient.__init__ base key) +:+ str_repeat "/"%char n
    /\ base = Client.host (Client.__init__ base key) +:+ str_repeat "/"%char n
    /\ base = OpenAIEmbeddingFunction.base_url
                (OpenAIEmbeddingFunction.__init__ api_key model_name base)
              +:+ str_repeat "/"%char n.
Proof.
  destruct (rstrip_slash_decompose base) as [n Hn].
  exists n. simpl. auto.
Qed.

(** X2.  Normalization is idempotent: building an adapter from the host an
    adapter already stores gives the same adapter, so a stored host can be
    passed around and reused as a base URL. *)
Theorem construction_idempotent
    (base : string) (key : option string) (api_key model_name : string) :
  AsyncClient.__init__ (AsyncClient.host (AsyncClient.__init__ base key)) key
  = AsyncClient.__init__ base key
  /\ Client.__init__ (Client.host (Client.__init__ base key)) key
     = Client.__init__ base key
  /\ OpenAIEmbeddingFunction.__init__ api_key model_name
       (OpenAIEmbeddingFunction.base_url
          (OpenAIEmbeddingFunction.__init__ api_key model_name base))
     = OpenAIEmbeddingFunction.__init__ api_key model_name base.
Proof.
  unfold AsyncClient.__init__, Client.__init__, OpenAIEmbeddingFunction.__init__.
  simpl. rewrite rstrip_idempotent. auto.
Qed.

(* ===================================================================== *)
(** ** Further properties: how an operation can end *)
(* ===================================================================== *)

Lemma handler_shape_ret {A : Type} (a : A) (srv : transport) :
  handler_shape ((mret a : IO A) srv).
Proof. left. exists a. reflexivity. Qed.

Lemma handler_shape_refused {A : Type} (body : string) (srv : transport) :
  handler_shape
    ((_ ← emit (LogError ("OpenAI API error: " +:+ body));
      @raise A (Exception ("OpenAI API error: " +:+ body))) srv).
Proof. right. right. exists body. reflexivity. Qed.

Lemma handler_shape_bind_lift {A B : Type} (r : exn + A) (f : A -> IO B)
    (srv : transport) :
  (forall a, handler_shape (f a srv)) -> handler_shape ((lift r ≫= f) srv).
Proof.
  intros Hf. destruct r as [e|a].
  - right. left. exists e. reflexivity.
  - specialize (Hf a). run_io. destruct (f a srv) as [t o]. exact Hf.
Qed.

Lemma exchange_run_shape {A : Type} (prefix : string) (r : http_request)
    (k : http_response -> IO A) (srv : transport) :
  (forall resp, handler_shape (k resp srv)) ->
  exchange_shape prefix r (try_log prefix (post r ≫= k) srv).
Proof.
  intros Hk. run_io. destruct (srv r) as [e|resp]; simpl.
  - right. left. exists e. reflexivity.
  - destruct (Hk resp) as [[v Hv] | [[e He] | [body Hb]]].
    + rewrite Hv. left. exists v. reflexivity.
    + rewrite He. right. left. exists e. reflexivity.
    + rewrite Hb. right. right. exists body. reflexivity.
Qed.

Ltac handler_steps :=
  repeat (apply handler_shape_bind_lift; intros);
  first [apply handler_shape_ret | apply handler_shape_refused].

Lemma async_chat_shape (self : AsyncClient.t) model messages options format tools srv :
  exists r,
    requests_of (trace_of (AsyncClient.chat self model messages options format tools srv)) = [r]
    /\ exchange_shape "Error calling OpenAI API: " r
         (AsyncClient.chat self model messages options format tools srv).
Proof.
  eexists. split.
  - unfold AsyncClient.chat. apply exchange_requests. intros resp. auto 12 with io.
  - unfold AsyncClient.chat. apply exchange_run_shape. intros resp.
    destruct (bool_decide (status_code resp ≠ 200)); handler_steps.
Qed.

(** X3.  Every cloud operation sends exactly one request per call (none for
    an empty embedding batch) and ends in one of three ways: it returns a
    value and logs nothing; it raises an exception that its handler logged
    once; or it raises the provider error, whose body was logged before the
    handler logged the exception.  There is no retry and no other log
    record, whatever the transport does. *)
Theorem operations_end_in_three_ways
    (ca : AsyncClient.t) (cs : Client.t) (ef : OpenAIEmbeddingFunction.t)
    (model : string) (messages : list pyval)
    (options format : option (gmap string pyval)) (tools : option (list pyval))
    (prompt : string) (texts : list string) (srv : transport) :
  (exists r, exchange_shape "Error calling OpenAI API: " r
               (AsyncClient.chat ca model messages options format tools srv))
  /\ (exists r, exchange_shape "Error calling OpenAI API: " r
               (Client.chat cs model messages options format tools srv))
  /\ (exists r, exchange_shape "Error getting embeddings from OpenAI API: " r
               (AsyncClient.embeddings ca model prompt srv))
  /\ match texts with
     | [] => OpenAIEmbeddingFunction.__call__ ef texts srv = ([], inr [])
     | _ :: _ =>
         exists r, exchange_shape "Error getting embeddings from OpenAI API: " r
                     (OpenAIEmbeddingFunction.__call__ ef texts srv)
     end.
Proof.
  split; [|split; [|split]].
  - destruct (async_chat_shape ca model messages options format tools srv) as (r & _ & H).
    exists r. exact H.
  - rewrite (sync_chat_is_async_chat cs (as_async cs)) by reflexivity.
    destruct (async_chat_shape (as_async cs) model messages options format tools srv)
      as (r & _ & H).
    exists r. exact H.
  - eexists. unfold AsyncClient.embeddings. apply exchange_run_shape. intros resp.
    destruct (bool_decide (status_code resp ≠ 200)); handler_steps.
  - destruct texts as [|t texts]; [reflexivity|].
    eexists. unfold OpenAIEmbeddingFunction.__call__. simpl.
    apply exchange_run_shape. intros resp.
    destruct (bool_decide (status_code resp ≠ 200)); handler_steps.
Qed.

(** X4.  When the transport itself fails (connection refused, timeout), each
    operation logs that exception once and raises it unchanged, after a
    single attempt. *)
Theorem transport_failure_propagates
    (ca : AsyncClient.t) (cs : Client.t) (ef : OpenAIEmbeddingFunction.t)
    (model : string) (messages : list pyval)
    (options format : option (gmap string pyval)) (tools : option (list pyval))
    (prompt : string) (t : string) (texts : list string)
    (srv : transport) (e : exn) :
  fails_with srv e ->
  (exists r, AsyncClient.chat ca model messages options format tools srv
             = ([Post r; LogException "Error calling OpenAI API: " e], inl e))
  /\ (exists r, Client.chat cs model messages options format tools srv
             = ([Post r; LogException "Error calling OpenAI API: " e], inl e))
  /\ (exists r, AsyncClient.embeddings ca model prompt srv
             = ([Post r; LogException "Error getting embeddings from OpenAI API: " e], inl e))
  /\ (exists r, OpenAIEmbeddingFunction.__call__ ef (t :: texts) srv
             = ([Post r; LogException "Error getting embeddings from OpenAI API: " e], inl e)).
Proof.
  intros Hfail.
  assert (Hstep : forall (A : Type) prefix r (k : http_response -> IO A),
            try_log prefix (post r ≫= k) srv = ([Post r; LogException prefix e], inl e)).
  { intros A prefix r k. run_io. rewrite Hfail. reflexivity. }
  repeat split; eexists.
  - unfold AsyncClient.chat. apply Hstep.
  - unfold Client.chat. apply Hstep.
  - unfold AsyncClient.embeddings. apply Hstep.
  - unfold OpenAIEmbeddingFunction.__call__. simpl. apply Hstep.
Qed.

Lemma transport_failure_propagates_witness :
  let e := TransportError "connection refused" in
  let ca := AsyncClient.__init__ default_base_url (Some "sk-test") in
  let cs := Client.__init__ default_base_url (Some "sk-test") in
  let ef := OpenAIEmbeddingFunction.__init__ "sk-test" "text-embedding-3-small"
              default_base_url in
  (exists r, AsyncClient.chat ca "gpt-4o-mini" [] None None None unreachable
             = ([Post r; LogException "Error calling OpenAI API: " e], inl e))
  /\ (exists r, Client.chat cs "gpt-4o-mini" [] None None None unreachable
             = ([Post r; LogException "Error calling OpenAI API: " e], inl e))
  /\ (exists r, AsyncClient.embeddings ca "gpt-4o-mini" "hello" unreachable
             = ([Post r; LogException "Error getting embeddings from OpenAI API: " e], inl e))
  /\ (exists r, OpenAIEmbeddingFunction.__call__ ef ("a" :: ["b"]) unreachable
             = ([Post r; LogException "Error getting embeddings from OpenAI API: " e], inl e)).
Proof.
  intros e ca cs ef.
  apply (transport_failure_propagates ca cs ef "gpt-4o-mini" [] None None None
           "hello" "a" ["b"] unreachable e).
  intros r. reflexivity.
Defined.

(* ===================================================================== *)
(** ** Further properties: the chat request *)
(* ===================================================================== *)

Lemma options_or_empty (options : option (gmap string pyval)) :
  (if opt_truthy dict_truthy options then default ∅ options else ∅)
  = default ∅ options.
Proof.
  destruct options as [o|]; simpl; [|reflexivity].
  unfold dict_truthy. destruct (map_to_list o) eqn:E; simpl; [|reflexivity].
  apply map_to_list_empty_iff in E. congruence.
Qed.

Lemma dict_truthy_insert {V : Type} (k : string) (v : V) (d : gmap string V) :
  dict_truthy (<[k := v]> d) = true.
Proof.
  unfold dict_truthy. destruct (map_to_list (<[k := v]> d)) eqn:E; [|reflexivity].
  apply map_to_list_empty_iff in E. exfalso. exact (insert_non_empty d k v E).
Qed.

Lemma dict_truthy_empty {V : Type} : dict_truthy (∅ : gmap string V) = false.
Proof. unfold dict_truthy. rewrite map_to_list_empty. reflexivity. Qed.

(** The whole body of the request that [chat] sends. *)
Lemma async_chat_request_body (self : AsyncClient.t) model messages options format tools srv :
  exists d,
    requests_of (trace_of (AsyncClient.chat self model messages options format tools srv))
    = [ {| req_url := AsyncClient.host self +:+ "/chat/completions";
           req_headers := AsyncClient.headers self;
           req_json := PDict d |} ]
    /\ d !! "response_format"
       = (if opt_truthy dict_truthy format
          then Some (PDict {[ "type" := PStr "json_object" ]}) else None)
    /\ d !! "tools"
       = (if opt_truthy list_truthy tools then Some (PList (default [] tools)) else None)
    /\ (forall k, k ∉ chat_request_keys -> d !! k = None).
Proof.
  unfold AsyncClient.chat. eexists. split.
  - apply exchange_requests. intros resp. auto 12 with io.
  - unfold chat_request_keys.
    destruct (opt_truthy list_truthy tools), (opt_truthy dict_truthy format);
      (split; [by simplify_map_eq | split; [by simplify_map_eq |]]);
      intros k Hk; rewrite !not_elem_of_cons in Hk;
      destruct Hk as (? & ? & ? & ? & ? & ? & _); by simplify_map_eq.
Qed.

(** X5.  A chat request goes to [<host>/chat/completions] with the bearer
    header built at construction; its body holds the model name and the
    message list exactly as given, and never a key other than model,
    messages, temperature, max_tokens, response_format and tools. *)
Theorem chat_request_shape (host : string) (key : option string)
    (model : string) (messages : list pyval)
    (options format : option (gmap string pyval)) (tools : option (list pyval))
    (srv : transport) :
  let run := AsyncClient.chat (AsyncClient.__init__ host key)
               model messages options format tools srv in
  request_envelope <$> requests_of (trace_of run)
  = [ (rstrip host "/" +:+ "/chat/completions",
       Some ("Bearer " +:+ format_opt_str key), Some "application/json") ]
  /\ sent_fields run "model" = [Some (PStr model)]
  /\ sent_fields run "messages" = [Some (PList messages)]
  /\ (forall k, k ∉ chat_request_keys -> sent_fields run k = [None]).
Proof.
  intros run. unfold sent_fields, run.
  destruct (async_chat_requests (AsyncClient.__init__ host key)
              model messages options format tools srv) as (d & Hd & Hmo & Hme & _).
  destruct (async_chat_request_body (AsyncClient.__init__ host key)
              model messages options format tools srv) as (d' & Hd' & _ & _ & Hk).
  rewrite Hd. rewrite Hd in Hd'. injection Hd' as Hdd. subst d'.
  simpl. unfold request_field, request_envelope. simpl.
  rewrite Hmo, Hme. repeat split.
  intros k Hnk. rewrite (Hk k Hnk). reflexivity.
Qed.

(** X6.  A structured-output [format] is reduced to a flag: any non-empty
    format dictionary, whatever it holds, makes the request carry
    [response_format = {"type": "json_object"}]; with no format or an empty
    one the request has no [response_format] key.  Both call modes. *)
Theorem chat_format_mapping (self : AsyncClient.t) (cs : Client.t)
    (model : string) (messages : list pyval)
    (options : option (gmap string pyval)) (tools : option (list pyval))
    (k : string) (v : pyval) (f : gmap string pyval) (srv : transport) :
  (sent_fields (AsyncClient.chat self model messages options (Some (<[k := v]> f)) tools srv)
     "response_format" = [Some (PDict {[ "type" := PStr "json_object" ]})]
   /\ sent_fields (AsyncClient.chat self model messages options None tools srv)
     "response_format" = [None]
   /\ sent_fields (AsyncClient.chat self model messages options (Some ∅) tools srv)
     "response_format" = [None])
  /\ (sent_fields (Client.chat cs model messages options (Some (<[k := v]> f)) tools srv)
     "response_format" = [Some (PDict {[ "type" := PStr "json_object" ]})]
   /\ sent_fields (Client.chat cs model messages options None tools srv)
     "response_format" = [None]
   /\ sent_fields (Client.chat cs model messages options (Some ∅) tools srv)
     "response_format" = [None]).
Proof.
  rewrite !(sync_chat_is_async_chat cs (as_async cs)) by reflexivity.
  generalize (as_async cs). intros self'.
  unfold sent_fields.
  repeat split;
    match goal with
    | |- context [AsyncClient.chat ?c _ _ _ ?fmt _ _] =>
        destruct (async_chat_request_body c model messages options fmt tools srv)
          as (d & -> & Hf & _)
    end; simpl; unfold request_field; simpl; rewrite Hf; unfold opt_truthy;
    rewrite ?dict_truthy_insert, ?(dict_truthy_empty (V := pyval)); reflexivity.
Qed.

(** X7.  A non-empty tool list is passed to the vendor unchanged, in order;
    with no tools or an empty list the request has no [tools] key.  Both
    call modes. *)
Theorem chat_tools_mapping (self : AsyncClient.t) (cs : Client.t)
    (model : string) (messages : list pyval)
    (options format : option (gmap string pyval))
    (tool : pyval) (more : list pyval) (srv : transport) :
  (sent_fields (AsyncClient.chat self model messages options format (Some (tool :: more)) srv)
     "tools" = [Some (PList (tool :: more))]
   /\ sent_fields (AsyncClient.chat self model messages options format None srv)
     "tools" = [None]
   /\ sent_fields (AsyncClient.chat self model messages options format (Some []) srv)
     "tools" = [None])
  /\ (sent_fields (Client.chat cs model messages options format (Some (tool :: more)) srv)
     "tools" = [Some (PList (tool :: more))]
   /\ sent_fields (Client.chat cs model messages options format None srv)
     "tools" = [None]
   /\ sent_fields (Client.chat cs model messages options format (Some []) srv)
     "tools" = [None]).
Proof.
  rewrite !(sync_chat_is_async_chat cs (as_async cs)) by reflexivity.
  generalize (as_async cs). intros self'.
  unfold sent_fields.
  repeat split;
    match goal with
    | |- context [AsyncClient.chat ?c _ _ _ _ ?tl _] =>
        destruct (async_chat_request_body c model messages options format tl srv)
          as (d & -> & _ & Ht & _)
    end; simpl; unfold request_field; simpl; rewrite Ht; reflexivity.
Qed.

(** X8.  Only two options are read.  Two option mappings that agree on
    [temperature] and [num_predict] give the same run of [chat], in both
    call modes: every other entry is ignored. *)
Theorem chat_ignores_other_options (ca : AsyncClient.t) (cs : Client.t)
    (model : string) (messages : list pyval)
    (options options' format : option (gmap string pyval))
    (tools : option (list pyval)) (srv : transport) :
  default ∅ options !! "temperature" = default ∅ options' !! "temperature" ->
  default ∅ options !! "num_predict" = default ∅ options' !! "num_predict" ->
  AsyncClient.chat ca model messages options format tools srv
  = AsyncClient.chat ca model messages options' format tools srv
  /\ Client.chat cs model messages options format tools srv
     = Client.chat cs model messages options' format tools srv.
Proof.
  intros Ht Hn. unfold AsyncClient.chat, Client.chat.
  rewrite !options_or_empty, Ht, Hn. split; reflexivity.
Qed.

Lemma chat_ignores_other_options_witness :
  let ca := AsyncClient.__init__ default_base_url (Some "sk-test") in
  let cs := Client.__init__ default_base_url (Some "sk-test") in
  let o1 : gmap string pyval := {[ "temperature" := PFloat 0.2; "top_k" := PInt 40 ]} in
  let o2 : gmap string pyval := {[ "temperature" := PFloat 0.2; "seed" := PInt 7 ]} in
  AsyncClient.chat ca "gpt-4o-mini" [] (Some o1) None None unreachable
  = AsyncClient.chat ca "gpt-4o-mini" [] (Some o2) None None unreachable
  /\ Client.chat cs "gpt-4o-mini" [] (Some o1) None None unreachable
     = Client.chat cs "gpt-4o-mini" [] (Some o2) None None unreachable.
Proof.
  intros ca cs o1 o2.
  apply (chat_ignores_other_options ca cs "gpt-4o-mini" [] (Some o1) (Some o2)
           None None unreachable); reflexivity.
Defined.

(** X9.  An empty argument counts as an omitted one: [chat] called with an
    empty options dictionary, an empty format dictionary and an empty tool
    list runs exactly as [chat] called without them. *)
Theorem chat_empty_arguments_as_omitted (ca : AsyncClient.t) (cs : Client.t)
    (model : string) (messages : list pyval) (srv : transport) :
  AsyncClient.chat ca model messages (Some ∅) (Some ∅) (Some []) srv
  = AsyncClient.chat ca model messages None None None srv
  /\ Client.chat cs model messages (Some ∅) (Some ∅) (Some []) srv
     = Client.chat cs model messages None None None srv.
Proof.
  unfold AsyncClient.chat, Client.chat, opt_truthy.
  rewrite (dict_truthy_empty (V := pyval)). split; reflexivity.
Qed.

(* ===================================================================== *)
(** ** Further properties: the chat response *)
(* ===================================================================== *)

Lemma async_chat_inversion (self : AsyncClient.t)
    model messages options format tools srv v :
  outcome (AsyncClient.chat self model messages options format tools srv) = inr v ->
  exists r resp result choices choice message content tool_calls,
    req_url r = AsyncClient.host self +:+ "/chat/completions"
    /\ srv r = inr resp
    /\ status_code resp = 200
    /\ json resp = inr result
    /\ getitem_str result "choices" = inr choices
    /\ getitem_int choices 0 = inr choice
    /\ getitem_str choice "message" = inr message
    /\ getitem_str message "content" = inr content
    /\ get_method message "tool_calls" (PList []) = inr tool_calls
    /\ v = canonical_chat model (PStr "assistant") content tool_calls.
Proof.
  unfold AsyncClient.chat. run_io. intros H.
  match type of H with context [srv ?r] => exists r; destruct (srv r) as [e|resp] eqn:Hr end;
    simpl in H; [discriminate|].
  exists resp.
  destruct (bool_decide (status_code resp ≠ 200)) eqn:Hst; simpl in H; [discriminate|].
  apply bool_decide_eq_false in Hst.
  assert (Hs : status_code resp = 200) by lia.
  destruct (json resp) as [e|result] eqn:Hj; simpl in H; [discriminate|].
  destruct (getitem_str result "choices") as [e|choices] eqn:H1;
    simpl in H; [discriminate|].
  destruct (getitem_int choices 0) as [e|choice] eqn:H2; simpl in H; [discriminate|].
  destruct (getitem_str choice "message") as [e|message] eqn:H3;
    simpl in H; [discriminate|].
  destruct (getitem_str message "content") as [e|content] eqn:H4;
    simpl in H; [discriminate|].
  destruct (get_method message "tool_calls" (PList [])) as [e|tool_calls] eqn:H5;
    simpl in H; [discriminate|].
  exists result, choices, choice, message, content, tool_calls.
  repeat split; try assumption. inversion H. reflexivity.
Qed.

Lemma chat_runs_async (host : string) (key : option string)
    model messages options format tools srv :
  chat_runs host key model messages options format tools srv
  = [ AsyncClient.chat (AsyncClient.__init__ host key)
        model messages options format tools srv;
      AsyncClient.chat (AsyncClient.__init__ host key)
        model messages options format tools srv ].
Proof.
  unfold chat_runs.
  rewrite (sync_chat_is_async_chat (Client.__init__ host key)
             (AsyncClient.__init__ host key)) by reflexivity.
  reflexivity.
Qed.

(** X10.  [chat] returns a value only when the vendor answered the request
    with status 200 and a body whose first choice holds a message with a
    content; the value is then the canonical translation of that body.  In
    every other situation the call raises: no response is ever made up.
    Both call modes. *)
Theorem chat_value_comes_from_vendor (host : string) (key : option string)
    (model : string) (messages : list pyval)
    (options format : option (gmap string pyval)) (tools : option (list pyval))
    (srv : transport) :
  Forall (fun run =>
            forall v, outcome run = inr v ->
              translated_from_vendor srv
                (rstrip host "/" +:+ "/chat/completions") model v)
         (chat_runs host key model messages options format tools srv).
Proof.
  rewrite chat_runs_async.
  assert (Hone : forall v,
            outcome (AsyncClient.chat (AsyncClient.__init__ host key)
                       model messages options format tools srv) = inr v ->
            translated_from_vendor srv (rstrip host "/" +:+ "/chat/completions") model v).
  { intros v Hv.
    apply (async_chat_inversion (AsyncClient.__init__ host key)) in Hv. exact Hv. }
  constructor; [exact Hone|]. constructor; [exact Hone|]. constructor.
Qed.

(** X11.  A 200 answer that cannot be translated makes [chat] raise the
    interpreter's exception: the decoding error when the body is not JSON,
    [KeyError] when the body has no [choices] entry or the first message
    has no [content], [IndexError] when the list of choices is empty.  Both
    call modes. *)
Theorem chat_malformed_answer (host : string) (key : option string)
    (model : string) (messages : list pyval)
    (options format : option (gmap string pyval)) (tools : option (list pyval))
    (srv : transport) (resp : http_response) :
  answers srv (rstrip host "/" +:+ "/chat/completions") resp ->
  status_code resp = 200 ->
  Forall (fun run =>
            (forall e, json resp = inl e -> outcome run = inl e)
            /\ (forall d, json resp = inr (PDict d) -> d !! "choices" = None ->
                  outcome run = inl (KeyError (PStr "choices")))
            /\ (forall d, json resp = inr (PDict d) ->
                  d !! "choices" = Some (PList []) ->
                  outcome run = inl IndexError)
            /\ (forall d ch rest msg, json resp = inr (PDict d) ->
                  d !! "choices" = Some (PList (PDict ch :: rest)) ->
                  ch !! "message" = Some (PDict msg) ->
                  msg !! "content" = None ->
                  outcome run = inl (KeyError (PStr "content"))))
         (chat_runs host key model messages options format tools srv).
Proof.
  intros Hsrv Hst. rewrite chat_runs_async.
  assert (Hone :
    let run := AsyncClient.chat (AsyncClient.__init__ host key)
                 model messages options format tools srv in
    (forall e, json resp = inl e -> outcome run = inl e)
    /\ (forall d, json resp = inr (PDict d) -> d !! "choices" = None ->
          outcome run = inl (KeyError (PStr "choices")))
    /\ (forall d, json resp = inr (PDict d) ->
          d !! "choices" = Some (PList []) ->
          outcome run = inl IndexError)
    /\ (forall d ch rest msg, json resp = inr (PDict d) ->
          d !! "choices" = Some (PList (PDict ch :: rest)) ->
          ch !! "message" = Some (PDict msg) ->
          msg !! "content" = None ->
          outcome run = inl (KeyError (PStr "content")))).
  { unfold AsyncClient.chat. run_io.
    rewrite Hsrv by reflexivity. rewrite Hst.
    rewrite bool_decide_eq_false_2 by (intros Hne; apply Hne; reflexivity).
    split; [|split; [|split]].
    - intros e Hj. rewrite Hj. reflexivity.
    - intros d Hj Hc. rewrite Hj. simpl. rewrite Hc. reflexivity.
    - intros d Hj Hc. rewrite Hj. simpl. rewrite Hc. reflexivity.
    - intros d ch rest msg Hj Hc Hm Hn. rewrite Hj.
      unfold getitem_str at 1. rewrite Hc.
      unfold getitem_int. rewrite list_index_head.
      unfold getitem_str at 1. rewrite Hm.
      unfold getitem_str. rewrite Hn. reflexivity. }
  constructor; [exact Hone|]. constructor; [exact Hone|]. constructor.
Qed.

Lemma chat_malformed_answer_witness :
  let resp := ok_response (PDict {[ "choices" := PList [] ]}) in
  Forall (fun run =>
            (forall e, json resp = inl e -> outcome run = inl e)
            /\ (forall d, json resp = inr (PDict d) -> d !! "choices" = None ->
                  outcome run = inl (KeyError (PStr "choices")))
            /\ (forall d, json resp = inr (PDict d) ->
                  d !! "choices" = Some (PList []) ->
                  outcome run = inl IndexError)
            /\ (forall d ch rest msg, json resp = inr (PDict d) ->
                  d !! "choices" = Some (PList (PDict ch :: rest)) ->
                  ch !! "message" = Some (PDict msg) ->
                  msg !! "content" = None ->
                  outcome run = inl (KeyError (PStr "content"))))
         (chat_runs default_base_url (Some "sk-test") "gpt-4o-mini" []
            None None None (always resp)).
Proof.
  intros resp.
  apply (chat_malformed_answer default_base_url (Some "sk-test") "gpt-4o-mini" []
           None None None (always resp) resp).
  - intros r _. reflexivity.
  - reflexivity.
Defined.

Example chat_empty_choices :
  AsyncClient.chat (AsyncClient.__init__ default_base_url (Some "sk-test"))
    "gpt-4o-mini" [] None None None
    (always (ok_response (PDict {[ "choices" := PList [] ]})))
  = ([Post {| req_url := "https://api.openai.com/v1/chat/completions";
              req_headers := {[ "Content-Type" := "application/json";
                                "Authorization" := "Bearer sk-test" ]};
              req_json := PDict {[ "model" := PStr "gpt-4o-mini";
                                   "messages" := PList [];
                                   "temperature" := PFloat 0.7;
                                   "max_tokens" := PNone ]} |};
      LogException "Error calling OpenAI API: " IndexError],
     inl IndexError).
Proof. reflexivity. Qed.

(* ===================================================================== *)
(** ** Further properties: embeddings *)
(* ===================================================================== *)

(** X12.  [embeddings] sends [{model, input: prompt}] to
    [<host>/embeddings]; when the vendor answers 200 it returns
    [{"embedding": v}] where [v] is the embedding of the first result
    object, whatever follows it in the list, and logs nothing. *)
Theorem async_embeddings_translation (ca : AsyncClient.t)
    (model prompt : string) (srv : transport) (resp : http_response)
    (d item : gmap string pyval) (rest : list pyval) (v : pyval) :
  answers srv (AsyncClient.host ca +:+ "/embeddings") resp ->
  status_code resp = 200 ->
  json resp = inr (PDict d) ->
  d !! "data" = Some (PList (PDict item :: rest)) ->
  item !! "embedding" = Some v ->
  AsyncClient.embeddings ca model prompt srv
  = ([Post {| req_url := AsyncClient.host ca +:+ "/embeddings";
              req_headers := AsyncClient.headers ca;
              req_json := PDict {[ "model" := PStr model; "input" := PStr prompt ]} |}],
     inr (PDict {[ "embedding" := v ]})).
Proof.
  intros Hsrv Hst Hj Hd Hi. unfold AsyncClient.embeddings. run_io.
  rewrite Hsrv by reflexivity. rewrite Hst.
  rewrite bool_decide_eq_false_2 by (intros Hne; apply Hne; reflexivity).
  rewrite Hj. unfold getitem_str at 1. rewrite Hd.
  unfold getitem_int. rewrite list_index_head.
  unfold getitem_str. rewrite Hi. reflexivity.
Qed.

Lemma async_embeddings_translation_witness :
  let ca := AsyncClient.__init__ default_base_url (Some "sk-test") in
  let first : gmap string pyval := {[ "embedding" := PList [PInt 1; PInt 2] ]} in
  let body : gmap string pyval :=
    {[ "data" := PList [PDict first; PDict {[ "embedding" := PList [PInt 3] ]}] ]} in
  AsyncClient.embeddings ca "text-embedding-3-small" "hello" (always (ok_response (PDict body)))
  = ([Post {| req_url := AsyncClient.host ca +:+ "/embeddings";
              req_headers := AsyncClient.headers ca;
              req_json := PDict {[ "model" := PStr "text-embedding-3-small";
                                   "input" := PStr "hello" ]} |}],
     inr (PDict {[ "embedding" := PList [PInt 1; PInt 2] ]})).
Proof.
  intros ca first body.
  refine (async_embeddings_translation ca "text-embedding-3-small" "hello"
            (always (ok_response (PDict body))) (ok_response (PDict body))
            body first [PDict {[ "embedding" := PList [PInt 3] ]}]
            (PList [PInt 1; PInt 2]) _ _ _ _ _).
  - intros r _. reflexivity.
  - reflexivity.
  - reflexivity.
  - reflexivity.
  - reflexivity.
Defined.

(** X13.  When the vendor answers 200 with an empty [data] list,
    [embeddings] raises [IndexError]; when the body has no [data] entry it
    raises [KeyError].  Either exception is logged once by the handler. *)
Theorem async_embeddings_no_data (ca : AsyncClient.t)
    (model prompt : string) (srv : transport) (resp : http_response)
    (d : gmap string pyval) :
  answers srv (AsyncClient.host ca +:+ "/embeddings") resp ->
  status_code resp = 200 ->
  json resp = inr (PDict d) ->
  exists r,
    (d !! "data" = Some (PList []) ->
       AsyncClient.embeddings ca model prompt srv
       = ([Post r; LogException "Error getting embeddings from OpenAI API: " IndexError],
          inl IndexError))
    /\ (d !! "data" = None ->
       AsyncClient.embeddings ca model prompt srv
       = ([Post r; LogException "Error getting embeddings from OpenAI API: "
                     (KeyError (PStr "data"))],
          inl (KeyError (PStr "data")))).
Proof.
  intros Hsrv Hst Hj. eexists. unfold AsyncClient.embeddings. run_io.
  rewrite Hsrv by reflexivity. rewrite Hst.
  rewrite bool_decide_eq_false_2 by (intros Hne; apply Hne; reflexivity).
  rewrite Hj. unfold getitem_str at 1 3.
  split; intros Hd; rewrite Hd; reflexivity.
Qed.

Lemma async_embeddings_no_data_witness :
  let ca := AsyncClient.__init__ default_base_url (Some "sk-test") in
  let d : gmap string pyval := {[ "data" := PList [] ]} in
  let srv := always (ok_response (PDict d)) in
  exists r,
    (d !! "data" = Some (PList []) ->
       AsyncClient.embeddings ca "text-embedding-3-small" "hello" srv
       = ([Post r; LogException "Error getting embeddings from OpenAI API: " IndexError],
          inl IndexError))
    /\ (d !! "data" = None ->
       AsyncClient.embeddings ca "text-embedding-3-small" "hello" srv
       = ([Post r; LogException "Error getting embeddings from OpenAI API: "
                     (KeyError (PStr "data"))],
          inl (KeyError (PStr "data")))).
Proof.
  intros ca d srv.
  apply (async_embeddings_no_data ca "text-embedding-3-small" "hello" srv
           (ok_response (PDict d)) d).
  - intros r _. reflexivity.
  - reflexivity.
  - reflexivity.
Defined.

Lemma embed_requests_of_batch (self : OpenAIEmbeddingFunction.t)
    (t : string) (texts : list string) (srv : transport) :
  requests_of (trace_of (OpenAIEmbeddingFunction.__call__ self (t :: texts) srv))
  = [ {| req_url := OpenAIEmbeddingFunction.base_url self +:+ "/embeddings";
         req_headers := OpenAIEmbeddingFunction.headers self;
         req_json := PDict {[ "model" := PStr (OpenAIEmbeddingFunction.model_name self);
                              "input" := PList (PStr <$> t :: texts) ]} |} ].
Proof.
  unfold OpenAIEmbeddingFunction.__call__.
  change (negb (list_truthy (t :: texts))) with false. cbv iota.
  apply exchange_requests. intros resp. auto 12 with io.
Qed.

(** X14.  A non-empty batch is sent in a single request to
    [<base_url>/embeddings], whatever its size: the body holds the model
    name given at construction and all the texts, in their order. *)
Theorem embed_single_batched_request (api_key model_name base : string)
    (t : string) (texts : list string) (srv : transport) :
  requests_of (trace_of (OpenAIEmbeddingFunction.__call__
                           (OpenAIEmbeddingFunction.__init__ api_key model_name base)
                           (t :: texts) srv))
  = [ {| req_url := rstrip base "/" +:+ "/embeddings";
         req_headers := {[ "Content-Type" := "application/json";
                           "Authorization" := "Bearer " +:+ api_key ]};
         req_json := PDict {[ "model" := PStr model_name;
                              "input" := PList (PStr <$> t :: texts) ]} |} ].
Proof. rewrite embed_requests_of_batch. reflexivity. Qed.

Lemma comprehension_inversion {A B : Type} (f : A -> exn + B) (l : list A) (out : list B) :
  comprehension f l = inr out -> Forall2 (fun x y => f x = inr y) l out.
Proof.
  revert out. induction l as [|x l IH]; simpl; intros out H.
  - inversion H. constructor.
  - destruct (f x) as [e|y] eqn:Hx; [discriminate|].
    destruct (comprehension f l) as [e|ys]; [discriminate|].
    inversion H. constructor; [exact Hx|]. apply IH. reflexivity.
Qed.

(** X15.  The number of vectors is not checked against the number of
    texts: for a non-empty batch, when the vendor answers 200 with result
    objects that each carry an embedding, the embedding function returns
    those embeddings, however many there are. *)
Theorem embed_count_not_checked (self : OpenAIEmbeddingFunction.t)
    (t : string) (texts : list string) (srv : transport) (resp : http_response)
    (d : gmap string pyval) (items vectors : list pyval) :
  answers srv (OpenAIEmbeddingFunction.base_url self +:+ "/embeddings") resp ->
  status_code resp = 200 ->
  json resp = inr (PDict d) ->
  d !! "data" = Some (PList items) ->
  Forall2 carries_embedding items vectors ->
  outcome (OpenAIEmbeddingFunction.__call__ self (t :: texts) srv) = inr vectors.
Proof.
  intros Hsrv Hst Hjs Hd Hall.
  unfold OpenAIEmbeddingFunction.__call__.
  change (negb (list_truthy (t :: texts))) with false. cbv iota.
  run_io. rewrite Hsrv by reflexivity. rewrite Hst.
  rewrite bool_decide_eq_false_2 by (intros H; apply H; reflexivity).
  rewrite Hjs. unfold getitem_str at 1. rewrite Hd. simpl.
  rewrite (comprehension_embeddings _ _ Hall). reflexivity.
Qed.

Lemma embed_count_not_checked_witness :
  let ef := OpenAIEmbeddingFunction.__init__ "sk-test" "text-embedding-3-small"
              default_base_url in
  let items := [ PDict {[ "embedding" := PList [PInt 1; PInt 2] ]} ] in
  let srv := always (ok_response (PDict {[ "data" := PList items ]})) in
  outcome (OpenAIEmbeddingFunction.__call__ ef ("first" :: ["second"; "third"]) srv)
  = inr [ PList [PInt 1; PInt 2] ].
Proof.
  intros ef items srv.
  refine (embed_count_not_checked ef "first" ["second"; "third"] srv
            (ok_response (PDict {[ "data" := PList items ]}))
            {[ "data" := PList items ]} items [ PList [PInt 1; PInt 2] ] _ _ _ _ _).
  - intros r _. reflexivity.
  - reflexivity.
  - reflexivity.
  - reflexivity.
  - repeat constructor. eexists. split; reflexivity.
Defined.

(** X16.  The embedding function returns a whole batch or nothing: when a
    call on a non-empty batch returns a list, the vendor answered 200 and
    every element of its [data] contributed its own embedding, in order.  A
    single element without an embedding makes the whole call raise. *)
Theorem embed_all_or_nothing (self : OpenAIEmbeddingFunction.t)
    (t : string) (texts : list string) (srv : transport) (out : list pyval) :
  outcome (OpenAIEmbeddingFunction.__call__ self (t :: texts) srv) = inr out ->
  exists r resp result data items,
    req_url r = OpenAIEmbeddingFunction.base_url self +:+ "/embeddings"
    /\ srv r = inr resp
    /\ status_code resp = 200
    /\ json resp = inr result
    /\ getitem_str result "data" = inr data
    /\ py_iter data = inr items
    /\ Forall2 (fun item v => getitem_str item "embedding" = inr v) items out.
Proof.
  unfold OpenAIEmbeddingFunction.__call__.
  change (negb (list_truthy (t :: texts))) with false. cbv iota.
  run_io. intros H.
  match type of H with context [srv ?r] => exists r; destruct (srv r) as [e|resp] eqn:Hr end;
    simpl in H; [discriminate|].
  exists resp.
  destruct (bool_decide (status_code resp ≠ 200)) eqn:Hst; simpl in H; [discriminate|].
  apply bool_decide_eq_false in Hst.
  assert (Hs : status_code resp = 200) by lia.
  destruct (json resp) as [e|result] eqn:Hj; simpl in H; [discriminate|].
  destruct (getitem_str result "data") as [e|data] eqn:H1; simpl in H; [discriminate|].
  destruct (py_iter data) as [e|items] eqn:H2; simpl in H; [discriminate|].
  destruct (comprehension _ items) as [e|embeddings] eqn:H3; simpl in H; [discriminate|].
  exists result, data, items. inversion H. subst out.
  repeat split; try assumption. apply comprehension_inversion. exact H3.
Qed.

Lemma embed_all_or_nothing_witness :
  let ef := OpenAIEmbeddingFunction.__init__ "sk-test" "text-embedding-3-small"
              default_base_url in
  let items := [ PDict {[ "embedding" := PList [PInt 1; PInt 2] ]} ] in
  let srv := always (ok_response (PDict {[ "data" := PList items ]})) in
  exists r resp result data items',
    req_url r = OpenAIEmbeddingFunction.base_url ef +:+ "/embeddings"
    /\ srv r = inr resp
    /\ status_code resp = 200
    /\ json resp = inr result
    /\ getitem_str result "data" = inr data
    /\ py_iter data = inr items'
    /\ Forall2 (fun item v => getitem_str item "embedding" = inr v) items'
         [ PList [PInt 1; PInt 2] ].
Proof.
  intros ef items srv.
  apply (embed_all_or_nothing ef "first" [] srv [ PList [PInt 1; PInt 2] ]).
  reflexivity.
Defined.

(* ===================================================================== *)
(** ** Further properties: the factory *)
(* ===================================================================== *)


Lemma cloud_key_present_intro (c : config) (k : string) :
  c !! "OPENAI_API_KEY" = Some k -> k ≠ "" -> k ≠ "&nbsp;" -> cloud_key_present c.
Proof. intros Hk Hne Hp. exists k. auto. Qed.

(** X18.  With a usable cloud key, the factory builds the cloud adapters
    from that key, from the [OPENAI_BASE_URL] entry and, for the embedding
    function, from the [EMBEDDING_MODEL] entry.  The defaults (the vendor's
    public endpoint, "text-embedding-3-small") apply only when an entry is
    missing: an entry that is present, even empty, is used as it is. *)
Theorem factory_cloud_construction (c : config) (k : string) (srv : transport) :
  c !! "OPENAI_API_KEY" = Some k -> k ≠ "" -> k ≠ "&nbsp;" ->
  let base := default "https://api.openai.com/v1" (c !! "OPENAI_BASE_URL") in
  outcome (get_client c srv) = inr (inl (Client.__init__ base (Some k)))
  /\ outcome (get_async_client c srv) = inr (inl (AsyncClient.__init__ base (Some k)))
  /\ outcome (get_embedding_function c srv)
     = inr (inl (OpenAIEmbeddingFunction.__init__ k
                   (default "text-embedding-3-small" (c !! "EMBEDDING_MODEL")) base)).
Proof.
  intros Hk Hne Hp base.
  pose proof (cloud_key_present_intro c k Hk Hne Hp) as Hc.
  destruct (get_client_run c srv) as [(_ & k1 & Hk1 & E1) | (Hn & _)]; [|contradiction].
  destruct (get_async_client_run c srv) as [(_ & k2 & Hk2 & E2) | (Hn & _)]; [|contradiction].
  destruct (get_embedding_function_run c srv) as [(_ & k3 & Hk3 & E3) | (Hn & _)];
    [|contradiction].
  rewrite E1, E2, E3. unfold outcome. simpl.
  assert (k1 = k) by congruence. assert (k2 = k) by congruence.
  assert (k3 = k) by congruence. subst. repeat split.
Qed.

Lemma factory_cloud_construction_witness :
  let c : config := {[ "OPENAI_API_KEY" := "sk-test"; "EMBEDDING_MODEL" := "" ]} in
  let base := default "https://api.openai.com/v1" (c !! "OPENAI_BASE_URL") in
  outcome (get_client c unreachable) = inr (inl (Client.__init__ base (Some "sk-test")))
  /\ outcome (get_async_client c unreachable)
     = inr (inl (AsyncClient.__init__ base (Some "sk-test")))
  /\ outcome (get_embedding_function c unreachable)
     = inr (inl (OpenAIEmbeddingFunction.__init__ "sk-test"
                   (default "text-embedding-3-small" (c !! "EMBEDDING_MODEL")) base)).
Proof.
  intros c.
  apply (factory_cloud_construction c "sk-test" unreachable).
  - reflexivity.
  - discriminate.
  - discriminate.
Defined.

(** X19.  For one configuration with a usable cloud key, the blocking and
    the non-blocking client that the factory returns are interchangeable
    for chat: every chat call runs identically on both. *)
Theorem factory_clients_interchangeable (c : config) (srv : transport) :
  cloud_key_present c ->
  exists cs ca,
    outcome (get_client c srv) = inr (inl cs)
    /\ outcome (get_async_client c srv) = inr (inl ca)
    /\ forall model messages options format tools srv',
         Client.chat cs model messages options format tools srv'
         = AsyncClient.chat ca model messages options format tools srv'.
Proof.
  intros Hc.
  destruct (get_client_run c srv) as [(_ & k1 & Hk1 & E1) | (Hn & _)]; [|contradiction].
  destruct (get_async_client_run c srv) as [(_ & k2 & Hk2 & E2) | (Hn & _)]; [|contradiction].
  assert (k2 = k1) by congruence. subst k2.
  eexists. eexists. rewrite E1, E2. unfold outcome. simpl.
  split; [reflexivity|]. split; [reflexivity|].
  intros. apply sync_chat_is_async_chat; reflexivity.
Qed.

Lemma factory_clients_interchangeable_witness :
  let c : config := {[ "OPENAI_API_KEY" := "sk-test" ]} in
  exists cs ca,
    outcome (get_client c unreachable) = inr (inl cs)
    /\ outcome (get_async_client c unreachable) = inr (inl ca)
    /\ forall model messages options format tools srv',
         Client.chat cs model messages options format tools srv'
         = AsyncClient.chat ca model messages options format tools srv'.
Proof.
  intros c.
  apply (factory_clients_interchangeable c unreachable).
  exists "sk-test". repeat split; discriminate.
Defined.

(** X20.  End to end, with a usable cloud key and no [OPENAI_BASE_URL]
    entry: every chat request of the client the factory returns goes to
    the vendor's public chat endpoint, and every batch of the embedding
    function it returns goes to the public embeddings endpoint, both
    authorized with the configured key. *)
Theorem factory_default_endpoints (c : config) (k : string) (srv : transport) :
  c !! "OPENAI_API_KEY" = Some k -> k ≠ "" -> k ≠ "&nbsp;" ->
  c !! "OPENAI_BASE_URL" = None ->
  (exists cs,
     outcome (get_client c srv) = inr (inl cs)
     /\ forall model messages options format tools srv',
          request_envelope <$>
            requests_of (trace_of (Client.chat cs model messages options format tools srv'))
          = [ ("https://api.openai.com/v1/chat/completions",
               Some ("Bearer " +:+ k), Some "application/json") ])
  /\ (exists ef,
     outcome (get_embedding_function c srv) = inr (inl ef)
     /\ forall t texts srv',
          request_envelope <$>
            requests_of (trace_of (OpenAIEmbeddingFunction.__call__ ef (t :: texts) srv'))
          = [ ("https://api.openai.com/v1/embeddings",
               Some ("Bearer " +:+ k), Some "application/json") ]).
Proof.
  intros Hk Hne Hp Hb.
  pose proof (cloud_key_present_intro c k Hk Hne Hp) as Hc.
  destruct (get_client_run c srv) as [(_ & k1 & Hk1 & E1) | (Hn & _)]; [|contradiction].
  destruct (get_embedding_function_run c srv) as [(_ & k3 & Hk3 & E3) | (Hn & _)];
    [|contradiction].
  assert (k1 = k) by congruence. assert (k3 = k) by congruence. subst k1 k3.
  rewrite E1, E3, Hb. unfold outcome. simpl. split.
  - eexists. split; [reflexivity|]. intros.
    rewrite (sync_chat_is_async_chat _ (AsyncClient.__init__ default_base_url (Some k)))
      by reflexivity.
    destruct (async_chat_requests (AsyncClient.__init__ default_base_url (Some k))
                model messages options format tools srv') as (d & -> & _).
    reflexivity.
  - eexists. split; [reflexivity|]. intros.
    rewrite embed_requests_of_batch. reflexivity.
Qed.

Lemma factory_default_endpoints_witness :
  let c : config := {[ "OPENAI_API_KEY" := "sk-test"; "OLLAMA_BASE_URL" := "" ]} in
  (exists cs,
     outcome (get_client c unreachable) = inr (inl cs)
     /\ forall model messages options format tools srv',
          request_envelope <$>
            requests_of (trace_of (Client.chat cs model messages options format tools srv'))
          = [ ("https://api.openai.com/v1/chat/completions",
               Some ("Bearer " +:+ "sk-test"), Some "application/json") ])
  /\ (exists ef,
     outcome (get_embedding_function c unreachable) = inr (inl ef)
     /\ forall t texts srv',
          request_envelope <$>
            requests_of (trace_of (OpenAIEmbeddingFunction.__call__ ef (t :: texts) srv'))
          = [ ("https://api.openai.com/v1/embeddings",
               Some ("Bearer " +:+ "sk-test"), Some "application/json") ]).
Proof.
  intros c.
  apply (factory_default_endpoints c "sk-test" unreachable).
  - reflexivity.
  - discriminate.
  - discriminate.
  - reflexivity.
Defined.
